(** * The storage-cleaner extension of Jaeger v2

  A shallow embedding of
  [cmd/jaeger/internal/integration/storagecleaner/extension.go]: the
  extension that serves [POST /purge] and forwards it to the [Purge]
  operation of a storage backend selected by name.

  The Go code is stateful: [Start] assigns the [server] field of the
  receiver and launches a goroutine, the request handler calls into the
  backend, and the goroutine reports to the host.  The embedding threads
  one [World] through a small state monad; the closures of [Start] are
  kept as data (their captured variables) and run by separate
  functions, since a handler stored in the server reads the very
  service that holds the server. *)

From Stdlib Require Import ZArith Ascii String List.
From stdpp Require Import base option strings list gmap.

Open Scope string_scope.
Open Scope list_scope.

(** ** Go error values *)

(** An [error] variable of Go is [option error] here, [None] being [nil].
  Leaf errors are the sentinel [http.ErrServerClosed] (a package-level
  variable, compared by identity) and any other leaf error, which only
  carries its text; [wrapError] is what [fmt.Errorf] builds for a
  format with one [%w] verb. *)
Inductive error : Type :=
| sentinelServerClosed
| errorString (s : string)
| wrapError (msg : string) (err : error).

#[global] Instance error_eq_dec : EqDecision error.
Proof. solve_decision. Defined.

Definition newline : string := String "010"%char EmptyString.

Module errors.

(** The [Error()] method. *)
Definition Error (e : error) : string :=
  match e with
  | sentinelServerClosed => "http: Server closed"
  | errorString s => s
  | wrapError msg _ => msg
  end.

(** The [Unwrap()] method, where the dynamic type has one. *)
Definition Unwrap (e : error) : option error :=
  match e with
  | wrapError _ err => Some err
  | _ => None
  end.

(** [errors.Is] on a non-nil [err] and a comparable [target]: walk the
    [Unwrap] chain and compare each link with [target]. *)
Fixpoint isChain (err target : error) : bool :=
  if decide (err = target) then true
  else match err with
       | wrapError _ inner => isChain inner target
       | _ => false
       end.

(** [errors.Is(err, target)], with the [nil] cases of its first line. *)
Definition Is (err target : option error) : bool :=
  match err, target with
  | Some e, Some t => isChain e t
  | None, None => true
  | _, _ => false
  end.

End errors.

Module fmt.

(** [fmt.Errorf(format, args...)] for a format without [%w]: the
    formatted text [s] as a leaf error. *)
Definition Errorf (s : string) : error := errorString s.

(** [fmt.Errorf(prefix + "%w", err)]: the text is the prefix followed
    by [err.Error()], and the result unwraps to [err]. *)
Definition Errorf_w (prefix : string) (err : error) : error :=
  wrapError (prefix +:+ errors.Error err) err.

End fmt.

(** ** net/http: status codes, response writer, server *)

Module http.

Definition StatusOK : Z := 200.
Definition StatusNotFound : Z := 404.
Definition StatusMethodNotAllowed : Z := 405.
Definition StatusInternalServerError : Z := 500.
Definition MethodPost : string := "POST".
Definition MethodGet : string := "GET".

Definition ErrServerClosed : error := sentinelServerClosed.

Record Request : Type := mkRequest {
  Method : string;
  Path : string
}.

(** What a handler has sent so far: the header map, the status line
    once written, and the body bytes. *)
Record ResponseWriter : Type := mkResponseWriter {
  header : gmap string (list string);
  status : option Z;
  body : string
}.

Definition newResponseWriter : ResponseWriter :=
  {| header := ∅; status := None; body := "" |}.

(** [w.WriteHeader(code)]: the first call fixes the status, a later
    one is ignored. *)
Definition WriteHeader (code : Z) (w : ResponseWriter) : ResponseWriter :=
  match status w with
  | Some _ => w
  | None => {| header := header w; status := Some code; body := body w |}
  end.

(** [w.Write(b)]: writes the header with 200 when none was written. *)
Definition Write (b : string) (w : ResponseWriter) : ResponseWriter :=
  let w1 := WriteHeader StatusOK w in
  {| header := header w1; status := status w1; body := body w1 +:+ b |}.

Definition Header_Del (k : string) (w : ResponseWriter) : ResponseWriter :=
  {| header := delete k (header w); status := status w; body := body w |}.

Definition Header_Set (k v : string) (w : ResponseWriter) : ResponseWriter :=
  {| header := <[k := [v]]> (header w); status := status w; body := body w |}.

(** [http.Error(w, error, code)]: plain-text headers, the status, then
    the text and a newline ([fmt.Fprintln]). *)
Definition Error (msg : string) (code : Z) (w : ResponseWriter) : ResponseWriter :=
  let w1 := Header_Del "Content-Length" w in
  let w2 := Header_Set "Content-Type" "text/plain; charset=utf-8" w1 in
  let w3 := Header_Set "X-Content-Type-Options" "nosniff" w2 in
  let w4 := WriteHeader code w3 in
  Write (msg +:+ newline) w4.

(** The fields of [http.Server] that [Start] sets; [H] is the type of
    the handler. *)
Record Server (H : Type) : Type := mkServer {
  Addr : string;
  Handler : H;
  ReadHeaderTimeout : Z
}.
Arguments mkServer {H} _ _ _.
Arguments Addr {H} _.
Arguments Handler {H} _.
Arguments ReadHeaderTimeout {H} _.

End http.

(** [time.Second], in nanoseconds. *)
Definition time_Second : Z := 1000000000.

(** ** gorilla/mux: a router of exact-path routes *)

Module mux.

(** A route registered with [HandleFunc(path, f)] and restricted with
    [Methods(ms...)]; no [Methods] call is an empty list, which accepts
    every method. *)
Record Route (F : Type) : Type := mkRoute {
  path : string;
  methods : list string;
  handlerFunc : F
}.
Arguments mkRoute {F} _ _ _.
Arguments path {F} _.
Arguments methods {F} _.
Arguments handlerFunc {F} _.

Definition Router (F : Type) : Type := list (Route F).

Definition NewRouter {F : Type} : Router F := [].

(** [r.HandleFunc(path, f).Methods(ms...)] *)
Definition HandleFunc_Methods {F : Type}
    (p : string) (f : F) (ms : list string) (r : Router F) : Router F :=
  r ++ [mkRoute p ms f].

Inductive MatchResult (F : Type) : Type :=
| Matched (f : F)
| MethodMismatch
| NotFound.
Arguments Matched {F} _.
Arguments MethodMismatch {F}.
Arguments NotFound {F}.

Definition methodAllowed (ms : list string) (m : string) : bool :=
  match ms with
  | [] => true
  | _ => bool_decide (m ∈ ms)
  end.

(** The routes are tried in order; a route whose path matches but whose
    methods do not is remembered as a method mismatch, and a later
    full match still wins. *)
Fixpoint Match {F : Type} (r : Router F) (req : http.Request) (mismatch : bool)
    : MatchResult F :=
  match r with
  | [] => if mismatch then MethodMismatch else NotFound
  | rt :: rest =>
      if decide (path rt = http.Path req) then
        if methodAllowed (methods rt) (http.Method req)
        then Matched (handlerFunc rt)
        else Match rest req true
      else Match rest req mismatch
  end.

End mux.

(** ** storage and jaegerstorage: backends resolved by name *)

Module storage.

(** Modelled from the spec: the [storage.Purger] interface (package
    [storage] is not part of the sources at hand), "a single no-argument
    operation that either succeeds or fails with an error".  The
    operation acts on the data [Store] the backend holds. *)
Record Purger (Store : Type) : Type := mkPurger {
  Purge : Store -> Store * option error
}.
Arguments mkPurger {Store} _.
Arguments Purge {Store} _ _.

(** Modelled from the spec: a [storage.Factory] value, "optionally
    implementing a Purger capability".  [asPurger] is the outcome of the
    type assertion [storageFactory.(storage.Purger)]: [None] when the
    assertion reports [ok = false]. *)
Record Factory (Store : Type) : Type := mkFactory {
  asPurger : option (Purger Store)
}.
Arguments mkFactory {Store} _.
Arguments asPurger {Store} _.

End storage.

Module jaegerstorage.

(** Modelled from the spec: the host as the registry that maps a backend
    name to a live backend instance, together with the error the host
    gives for a name it does not know (package [jaegerstorage] is not
    part of the sources at hand). *)
Record Host (Store : Type) : Type := mkHost {
  factories : gmap string (storage.Factory Store);
  lookupError : string -> error
}.
Arguments mkHost {Store} _ _.
Arguments factories {Store} _.
Arguments lookupError {Store} _ _.

(** Modelled from the spec: [jaegerstorage.GetStorageFactory(name, host)],
    the synchronous lookup "resolve(name) -> (backendHandle, found)";
    the Go function returns the pair [(factory, err)], here a sum. *)
Definition GetStorageFactory {Store : Type} (name : string) (host : Host Store)
    : storage.Factory Store + error :=
  match factories host !! name with
  | Some f => inl f
  | None => inr (lookupError host name)
  end.

End jaegerstorage.

Module component.

(** [component.NewFatalErrorEvent(err)] *)
Inductive StatusEvent : Type :=
| NewFatalErrorEvent (err : error).

End component.

(** ** Package storagecleaner *)

Module cfg.

(** Modelled from the spec: the [Config] struct (config.go is not part
    of the sources at hand), with the two fields [Start] reads: the name
    of the backend to purge and the listen port, a string. *)
Record Config : Type := mkConfig {
  TraceStorage : string;
  Port : string
}.

End cfg.

Definition Port : string := "9231".
Definition URL : string := "/purge".

Section Model.

(** The data a backend holds, the host's telemetry settings and
    [context.Context] are opaque to the extension. *)
Context {Store TelemetrySettings Ctx : Type}.

(** The closure [purgeHandler], kept as its captured [storageFactory];
    the captured receiver [c] is the service of the [World]. *)
Inductive HandlerFunc : Type :=
| purgeHandlerFunc (storageFactory : storage.Factory Store).

Definition Handler : Type := mux.Router HandlerFunc.

Record storageCleaner : Type := mkStorageCleaner {
  config : cfg.Config;
  server : option (http.Server Handler);
  settings : TelemetrySettings
}.

(** The method [Shutdown(ctx)] of net/http's [Server]: what the graceful close
    of a server returns under a given context. *)
Variable server_Shutdown : http.Server Handler -> Ctx -> option error.

(** The goroutine launched by [Start]; it captures the receiver only. *)
Inductive Goroutine : Type :=
| listenAndServeTask.

(** The operations on collaborators that the code executes, in program
    order: the type assertion to [storage.Purger] with its [ok], a call
    of [purger.Purge()], a call of [c.server.Shutdown(ctx)], a call of
    [c.settings.ReportStatus(ev)]. *)
Inductive Event : Type :=
| EvAssertPurger (ok : bool)
| EvPurge
| EvServerShutdown (ctx : Ctx)
| EvReportStatus (s : TelemetrySettings) (ev : component.StatusEvent).

Record World : Type := mkWorld {
  self : storageCleaner;
  store : Store;
  goroutines : list Goroutine;
  trace : list Event
}.

(** State passing over the [World]. *)
Definition M (A : Type) : Type := World -> A * World.

#[global] Instance M_ret : MRet M := fun A a w => (a, w).

#[global] Instance M_bind : MBind M :=
  fun A B f m w => let '(a, w1) := m w in f a w1.

Definition getSelf : M storageCleaner := fun w => (self w, w).

(** [c.server = s] *)
Definition setServer (s : option (http.Server Handler)) : M unit :=
  fun w =>
    (tt, {| self := {| config := config (self w);
                       server := s;
                       settings := settings (self w) |};
            store := store w;
            goroutines := goroutines w;
            trace := trace w |}).

Definition emit (e : Event) : M unit :=
  fun w =>
    (tt, {| self := self w; store := store w; goroutines := goroutines w;
            trace := trace w ++ [e] |}).

(** [go g()] *)
Definition go (g : Goroutine) : M unit :=
  fun w =>
    (tt, {| self := self w; store := store w;
            goroutines := goroutines w ++ [g];
            trace := trace w |}).

(** [purger.Purge()] *)
Definition callPurge (purger : storage.Purger Store) : M (option error) :=
  fun w =>
    let '(st, err) := storage.Purge purger (store w) in
    (err, {| self := self w; store := st; goroutines := goroutines w;
             trace := trace w ++ [EvPurge] |}).

(** [c.server.Shutdown(ctx)] *)
Definition callServerShutdown (srv : http.Server Handler) (ctx : Ctx)
    : M (option error) :=
  emit (EvServerShutdown ctx);; mret (server_Shutdown srv ctx).

(** [c.settings.ReportStatus(ev)] *)
Definition ReportStatus (s : TelemetrySettings) (ev : component.StatusEvent)
    : M unit :=
  emit (EvReportStatus s ev).

Definition newStorageCleaner (config : cfg.Config)
    (telemetrySettings : TelemetrySettings) : storageCleaner :=
  {| config := config; server := None; settings := telemetrySettings |}.

(** The closure [purgeStorage] of [Start]. *)
Definition purgeStorage (storageFactory : storage.Factory Store)
    : M (option error) :=
  match storage.asPurger storageFactory with
  | None =>
      emit (EvAssertPurger false);;
      c ← getSelf;
      mret (Some (fmt.Errorf ("storage " +:+ cfg.TraceStorage (config c)
                              +:+ " does not implement Purger interface")))
  | Some purger =>
      emit (EvAssertPurger true);;
      err ← callPurge purger;
      match err with
      | Some e => mret (Some (fmt.Errorf_w "error purging storage: " e))
      | None => mret None
      end
  end.

(** The closure [purgeHandler] of [Start]. *)
Definition purgeHandler (storageFactory : storage.Factory Store)
    (w : http.ResponseWriter) (r : http.Request) : M http.ResponseWriter :=
  err ← purgeStorage storageFactory;
  match err with
  | Some e =>
      mret (http.Error (errors.Error e) http.StatusInternalServerError w)
  | None =>
      mret (http.Write "Purge request processed successfully"
              (http.WriteHeader http.StatusOK w))
  end.

Definition callHandlerFunc (f : HandlerFunc)
    (w : http.ResponseWriter) (r : http.Request) : M http.ResponseWriter :=
  match f with
  | purgeHandlerFunc storageFactory => purgeHandler storageFactory w r
  end.

(** The router's [ServeHTTP]: the matched handler, or the router's
    answer for a method that is not allowed or a path that is unknown. *)
Definition ServeHTTP (r : Handler)
    (w : http.ResponseWriter) (req : http.Request) : M http.ResponseWriter :=
  match mux.Match r req false with
  | mux.Matched f => callHandlerFunc f w req
  | mux.MethodMismatch => mret (http.WriteHeader http.StatusMethodNotAllowed w)
  | mux.NotFound => mret (http.Error "404 page not found" http.StatusNotFound w)
  end.

(** The body of the goroutine of [Start]; [lasErr] is what
    [c.server.ListenAndServe()] returned. *)
Definition listenerTask (lasErr : option error) : M unit :=
  match lasErr with
  | Some e =>
      if negb (errors.Is (Some e) (Some http.ErrServerClosed)) then
        c ← getSelf;
        ReportStatus (settings c)
          (component.NewFatalErrorEvent
             (fmt.Errorf_w "error starting cleaner server: " e))
      else mret tt
  | None => mret tt
  end.

Definition Start (ctx : Ctx) (host : jaegerstorage.Host Store)
    : M (option error) :=
  c ← getSelf;
  match jaegerstorage.GetStorageFactory (cfg.TraceStorage (config c)) host with
  | inr err =>
      mret (Some (fmt.Errorf_w
                    ("cannot find storage factory '"
                     +:+ cfg.TraceStorage (config c) +:+ "': ") err))
  | inl storageFactory =>
      let r := mux.HandleFunc_Methods URL (purgeHandlerFunc storageFactory)
                 [http.MethodPost] mux.NewRouter in
      setServer (Some {| http.Addr := ":" +:+ cfg.Port (config c);
                         http.Handler := r;
                         http.ReadHeaderTimeout := 3 * time_Second |});;
      go listenAndServeTask;;
      mret None
  end.

Definition Shutdown (ctx : Ctx) : M (option error) :=
  c ← getSelf;
  match server c with
  | Some srv =>
      err ← callServerShutdown srv ctx;
      match err with
      | Some e =>
          mret (Some (fmt.Errorf_w "error shutting down cleaner server: " e))
      | None => mret None
      end
  | None => mret None
  end.

(** *** The service as the host and its clients drive it *)

(** What can happen to a service instance: the host calls [Start] or
    [Shutdown], a client's request reaches the listener, or the
    [ListenAndServe] call of a launched goroutine returns. *)
Inductive Call : Type :=
| CallStart (ctx : Ctx) (host : jaegerstorage.Host Store)
| CallShutdown (ctx : Ctx)
| CallRequest (req : http.Request)
| ListenerReturns (lasErr : option error).

Inductive Outcome : Type :=
| Returned (err : option error)
| Responded (resp : option http.ResponseWriter)
| Finished.

(** A request is served by the handler of the current server; without a
    server there is nothing to connect to. *)
Definition serve (req : http.Request) : M (option http.ResponseWriter) :=
  c ← getSelf;
  match server c with
  | Some srv =>
      w ← ServeHTTP (http.Handler srv) http.newResponseWriter req;
      mret (Some w)
  | None => mret None
  end.

(** The oldest launched goroutine runs to its end. *)
Definition runGoroutine (lasErr : option error) : M unit :=
  fun w =>
    match goroutines w with
    | [] => (tt, w)
    | listenAndServeTask :: rest =>
        listenerTask lasErr
          {| self := self w; store := store w; goroutines := rest;
             trace := trace w |}
    end.

Definition exec (c : Call) : M Outcome :=
  match c with
  | CallStart ctx host => err ← Start ctx host; mret (Returned err)
  | CallShutdown ctx => err ← Shutdown ctx; mret (Returned err)
  | CallRequest req => resp ← serve req; mret (Responded resp)
  | ListenerReturns lasErr => runGoroutine lasErr;; mret Finished
  end.

(** A history of calls, each recorded with its outcome. *)
Fixpoint run (cs : list Call) : M (list (Call * Outcome)) :=
  match cs with
  | [] => mret []
  | c :: rest =>
      o ← exec c;
      h ← run rest;
      mret ((c, o) :: h)
  end.

Definition newWorld (config : cfg.Config) (ts : TelemetrySettings)
    (st : Store) : World :=
  {| self := newStorageCleaner config ts; store := st;
     goroutines := []; trace := [] |}.

(** A recorded [Start] that returned [nil]. *)
Definition isStartOK (co : Call * Outcome) : bool :=
  match co with
  | (CallStart _ _, Returned None) => true
  | _ => false
  end.

(** Some [Start] of the history returned [nil]. *)
Definition startSucceeded (h : list (Call * Outcome)) : bool :=
  existsb isStartOK h.

(** The window of the specification: the history ends between a [Start]
    that returned [nil] and the completion of the next [Shutdown]. *)
Definition betweenStartAndStop (h : list (Call * Outcome)) : bool :=
  fold_left (fun b co => match co with
                         | (CallShutdown _, _) => false
                         | _ => isStartOK co || b
                         end) h false.

(** The number of [Purge] calls and of capability checks in a trace. *)
Definition isPurge (e : Event) : bool :=
  match e with EvPurge => true | _ => false end.

Definition isAssert (e : Event) : bool :=
  match e with EvAssertPurger _ => true | _ => false end.

Definition countPurge (t : list Event) : nat :=
  length (List.filter isPurge t).

Definition countAssert (t : list Event) : nat :=
  length (List.filter isAssert t).

End Model.

(** ** Statement vocabulary *)

(** The service of [w] holds the server that [Start] builds for the
    backend [f]: one route, [POST /purge], handled by [purgeHandler]
    over [f]. *)
Definition running {Store TelemetrySettings Ctx : Type}
    (w : @World Store TelemetrySettings Ctx) (f : storage.Factory Store) : Prop :=
  exists srv,
    server (self w) = Some srv /\
    http.Handler srv =
      mux.HandleFunc_Methods URL (purgeHandlerFunc f) [http.MethodPost]
        mux.NewRouter.

Definition isPostPurge (req : http.Request) : Prop :=
  http.Method req = http.MethodPost /\ http.Path req = URL.

(** [sub] occurs in [s]. *)
Definition Contains (s sub : string) : Prop :=
  exists pre post, s = pre +:+ sub +:+ post.

(** The error kinds of the specification, as the values the code builds. *)
Definition ResolutionError (name : string) (e : error) : Prop :=
  exists cause,
    e = fmt.Errorf_w ("cannot find storage factory '" +:+ name +:+ "': ") cause.

Definition ShutdownError (cause e : error) : Prop :=
  e = fmt.Errorf_w "error shutting down cleaner server: " cause.

(** The server [Start] assembles for a resolved backend. *)
Definition startedServer {Store TelemetrySettings : Type}
    (c : @storageCleaner Store TelemetrySettings)
    (f : storage.Factory Store) : http.Server Handler :=
  {| http.Addr := ":" +:+ cfg.Port (config c);
     http.Handler := mux.HandleFunc_Methods URL (purgeHandlerFunc f)
                       [http.MethodPost] mux.NewRouter;
     http.ReadHeaderTimeout := 3 * time_Second |}.

(** Whatever server the service holds is one that [Start] assembled. *)
Definition builtByStart {Store TelemetrySettings Ctx : Type}
    (w : @World Store TelemetrySettings Ctx) : Prop :=
  forall srv, server (self w) = Some srv ->
    exists f, srv = startedServer (self w) f.

(** The answer of [purgeHandler] for a backend named [name] that lacks
    the purge capability. *)
Definition answersNoPurger (name : string) (o : Outcome) : Prop :=
  exists resp,
    o = Responded (Some resp) /\
    http.status resp = Some http.StatusInternalServerError /\
    http.body resp =
      ("storage " +:+ name +:+ " does not implement Purger interface")
      +:+ newline.

(** ** Sample inputs *)

(** A backend that stores a number of spans.  [purgerOK] deletes them,
    [purgerFailing] reports an error and deletes nothing, and
    [factoryNoPurge] is a factory whose type has no [Purge] method. *)
Definition purgerOK : storage.Purger nat :=
  storage.mkPurger (fun _ => (0%nat, None)).

Definition diskError : error := errorString "disk unavailable".

Definition purgerFailing : storage.Purger nat :=
  storage.mkPurger (fun n => (n, Some diskError)).

Definition factoryOK : storage.Factory nat := storage.mkFactory (Some purgerOK).
Definition factoryFailing : storage.Factory nat :=
  storage.mkFactory (Some purgerFailing).
Definition factoryNoPurge : storage.Factory nat := storage.mkFactory None.

Definition sampleConfig : cfg.Config :=
  {| cfg.TraceStorage := "some_storage"; cfg.Port := Port |}.

Definition notRegistered (name : string) : error :=
  errorString ("storage " +:+ name +:+ " is not registered").

Definition hostWith (f : storage.Factory nat) : jaegerstorage.Host nat :=
  jaegerstorage.mkHost {[ "some_storage" := f ]} notRegistered.

Definition hostEmpty : jaegerstorage.Host nat :=
  jaegerstorage.mkHost ∅ notRegistered.

(** A server whose graceful close succeeds under context [true] and
    runs out of time under context [false]. *)
Definition deadlineExceeded : error := errorString "context deadline exceeded".

Definition sampleShutdown (srv : http.Server (@Handler nat)) (ctx : bool)
    : option error :=
  if ctx then None else Some deadlineExceeded.

Definition sampleWorld : @World nat unit bool := newWorld sampleConfig tt 7%nat.

Definition postPurge : http.Request :=
  {| http.Method := http.MethodPost; http.Path := URL |}.

(** The sample service after a [Start] that resolved the backend [f]. *)
Definition startedWorld (f : storage.Factory nat) : @World nat unit bool :=
  snd (Start true (hostWith f) sampleWorld).

(** ** Sequences of requests *)

Definition isPostPurgeb (req : http.Request) : bool :=
  bool_decide (http.Method req = http.MethodPost)
  && bool_decide (http.Path req = URL).

(** The number of [POST /purge] requests among the calls of a history. *)
Fixpoint countPostPurge {Store Ctx : Type} (cs : list (@Call Store Ctx)) : nat :=
  match cs with
  | [] => 0
  | CallRequest req :: rest =>
      (if isPostPurgeb req then 1 else 0) + countPostPurge rest
  | _ :: rest => countPostPurge rest
  end.

(** What [purgeHandler] writes to a new response writer when
    [purger.Purge()] returned [err]. *)
Definition purgeAnswer (err : option error) : http.ResponseWriter :=
  match err with
  | Some e =>
      http.Error (errors.Error (fmt.Errorf_w "error purging storage: " e))
        http.StatusInternalServerError http.newResponseWriter
  | None =>
      http.Write "Purge request processed successfully"
        (http.WriteHeader http.StatusOK http.newResponseWriter)
  end.

(** [n] calls of [purger.Purge()] in a row: what each returned, and the
    data the backend holds in the end. *)
Fixpoint purgeSeq {Store : Type} (purger : storage.Purger Store) (n : nat)
    (st : Store) : list (option error) * Store :=
  match n with
  | O => ([], st)
  | S k =>
      let '(st1, err) := storage.Purge purger st in
      let '(errs, st2) := purgeSeq purger k st1 in
      (err :: errs, st2)
  end.

(** ** The e2e integration harness: the config file with the cleaner *)

(** A YAML document as [yaml.Unmarshal] decodes it into [interface{}]:
    [nil], a [string], a [[]interface{}], a [map[string]interface{}], or
    a value of any other dynamic type (numbers, booleans, maps with keys
    that are not strings).  [VStringMap] is a [map[string]string], the
    type of the entry that [createStorageCleanerConfig] adds. *)
Set Warnings "-register-all".
Inductive Value : Type :=
| VNil
| VStr (s : string)
| VSeq (l : list Value)
| VMap (m : gmap string Value)
| VStringMap (m : gmap string string)
| VOther (repr : string).
Set Warnings "register-all".

(** How a test function ends: it returns, a [require] assertion stops
    it, or it panics. *)
Inductive TestResult (A : Type) : Type :=
| Ok (a : A)
| TestFailed
| Panic.
Arguments Ok {A} _.
Arguments TestFailed {A}.
Arguments Panic {A}.

(** The statements of [createStorageCleanerConfig] between
    [yaml.Unmarshal] and [yaml.Marshal], on the decoded [config].  A
    type assertion with [ok] is followed by [require.True(t, ok)]; one
    without [ok] panics when it fails.  The maps are updated in place,
    so the edit of [service] is seen through [config]. *)
Definition addStorageCleaner (config : gmap string Value)
    : TestResult (gmap string Value) :=
  match config !! "service" with
  | Some (VMap service) =>
      match service !! "extensions" with
      | Some (VSeq l) =>
          let service1 :=
            <["extensions" := VSeq (l ++ [VStr "storage_cleaner"])]> service in
          let config1 := <["service" := VMap service1]> config in
          match config1 !! "extensions" with
          | Some (VMap extensions) =>
              match extensions !! "jaeger_query" with
              | Some (VMap query) =>
                  match query !! "trace_storage" with
                  | Some (VStr trace_storage) =>
                      let extensions1 :=
                        <["storage_cleaner" :=
                            VStringMap {[ "trace_storage" := trace_storage ]}]>
                          extensions in
                      Ok (<["extensions" := VMap extensions1]> config1)
                  | _ => Panic
                  end
              | _ => TestFailed
              end
          | _ => TestFailed
          end
      | _ => Panic
      end
  | _ => TestFailed
  end.


Section Harness.

(** The file system and the libraries the harness calls: [os.ReadFile]
    and [yaml.Unmarshal] into a [map[string]interface{}] ([None] for an
    error), [yaml.Marshal], [t.TempDir()] (which creates a directory,
    [None] when it stops the test) and [os.WriteFile]. *)
Context {FS : Type}.
Variable ReadFile : string -> FS -> option string.
Variable Unmarshal : string -> option (gmap string Value).
Variable Marshal : gmap string Value -> option string.
Variable TempDir : FS -> option (string * FS).
Variable WriteFile : string -> string -> Z -> FS -> option FS.


End Harness.

(** *** Sample documents *)

Definition sampleQuery : gmap string Value :=
  {[ "trace_storage" := VStr "some_storage" ]}.

Definition sampleExtensions : gmap string Value :=
  <["jaeger_query" := VMap sampleQuery]>
    {[ "jaeger_storage" := VMap ∅ ]}.

Definition sampleService : gmap string Value :=
  <["extensions" := VSeq [VStr "jaeger_storage"; VStr "jaeger_query"]]>
    {[ "pipelines" := VMap ∅ ]}.

Definition sampleDocument : gmap string Value :=
  <["service" := VMap sampleService]>
    (<["extensions" := VMap sampleExtensions]>
       {[ "receivers" := VMap ∅ ]}).

(** A document whose [service.extensions] is missing, and one whose
    [trace_storage] is a number. *)
Definition documentNoList : gmap string Value :=
  <["service" := VMap ∅]> sampleDocument.

Definition documentBadName : gmap string Value :=
  <["extensions" :=
      VMap {[ "jaeger_query" := VMap {[ "trace_storage" := VOther "42" ]} ]}]>
    sampleDocument.







(** The sample document with the cleaner added. *)
Definition sampleRewritten : gmap string Value :=
  <["extensions" :=
      VMap (<["storage_cleaner" :=
                VStringMap {[ "trace_storage" := "some_storage" ]}]>
              sampleExtensions)]>
    (<["service" :=
         VMap (<["extensions" :=
                   VSeq [VStr "jaeger_storage"; VStr "jaeger_query";
                         VStr "storage_cleaner"]]> sampleService)]>
       sampleDocument).

Definition getPurge : http.Request :=
  {| http.Method := http.MethodGet; http.Path := URL |}.

(** ** Properties *)

Section Properties.

Context {Store TelemetrySettings Ctx : Type}.
Variable server_Shutdown : http.Server (@Handler Store) -> Ctx -> option error.

Local Abbreviation world := (@World Store TelemetrySettings Ctx).

Ltac run_monad :=
  unfold mbind, M_bind, mret, M_ret, getSelf, setServer, go, emit,
    ReportStatus, callServerShutdown, callPurge in *;
  cbn [fst snd self store goroutines trace config server settings] in *.

(** *** Start *)

Lemma Start_resolved (ctx : Ctx) (host : jaegerstorage.Host Store) (w : world)
    (f : storage.Factory Store) :
  jaegerstorage.factories host !! cfg.TraceStorage (config (self w)) = Some f ->
  Start ctx host w =
    (None,
     {| self := {| config := config (self w);
                   server := Some (startedServer (self w) f);
                   settings := settings (self w) |};
        store := store w;
        goroutines := goroutines w ++ [listenAndServeTask];
        trace := trace w |}).
Proof.
  intros Hf. unfold Start, jaegerstorage.GetStorageFactory. run_monad.
  rewrite Hf. reflexivity.
Qed.

Lemma Start_unresolved (ctx : Ctx) (host : jaegerstorage.Host Store) (w : world) :
  jaegerstorage.factories host !! cfg.TraceStorage (config (self w)) = None ->
  Start ctx host w =
    (Some (fmt.Errorf_w
             ("cannot find storage factory '"
              +:+ cfg.TraceStorage (config (self w)) +:+ "': ")
             (jaegerstorage.lookupError host (cfg.TraceStorage (config (self w))))),
     w).
Proof.
  intros Hf. unfold Start, jaegerstorage.GetStorageFactory. run_monad.
  rewrite Hf. reflexivity.
Qed.

Lemma Start_running (ctx : Ctx) (host : jaegerstorage.Host Store) (w : world)
    (f : storage.Factory Store) :
  jaegerstorage.factories host !! cfg.TraceStorage (config (self w)) = Some f ->
  running (snd (Start ctx host w)) f.
Proof.
  intros Hf. rewrite (Start_resolved ctx host w f Hf). cbn [snd].
  exists (startedServer (self w) f). split; reflexivity.
Qed.

(** *** Serving a request *)

Lemma purgeHandler_success (f : storage.Factory Store) (p : storage.Purger Store)
    (rw : http.ResponseWriter) (req : http.Request) (w : world) :
  storage.asPurger f = Some p ->
  snd (storage.Purge p (store w)) = None ->
  purgeHandler f rw req w =
    (http.Write "Purge request processed successfully"
       (http.WriteHeader http.StatusOK rw),
     {| self := self w; store := fst (storage.Purge p (store w));
        goroutines := goroutines w;
        trace := (trace w ++ [EvAssertPurger true]) ++ [EvPurge] |}).
Proof.
  intros Hp Hres. unfold purgeHandler, purgeStorage. rewrite Hp. run_monad.
  destruct (storage.Purge p (store w)) as [st err]. cbn in Hres. subst err.
  reflexivity.
Qed.

Lemma purgeHandler_failure (f : storage.Factory Store) (p : storage.Purger Store)
    (rw : http.ResponseWriter) (req : http.Request) (w : world) (e : error) :
  storage.asPurger f = Some p ->
  snd (storage.Purge p (store w)) = Some e ->
  purgeHandler f rw req w =
    (http.Error (errors.Error (fmt.Errorf_w "error purging storage: " e))
       http.StatusInternalServerError rw,
     {| self := self w; store := fst (storage.Purge p (store w));
        goroutines := goroutines w;
        trace := (trace w ++ [EvAssertPurger true]) ++ [EvPurge] |}).
Proof.
  intros Hp Hres. unfold purgeHandler, purgeStorage. rewrite Hp. run_monad.
  destruct (storage.Purge p (store w)) as [st err]. cbn in Hres. subst err.
  reflexivity.
Qed.

Lemma purgeHandler_no_purger (f : storage.Factory Store)
    (rw : http.ResponseWriter) (req : http.Request) (w : world) :
  storage.asPurger f = None ->
  purgeHandler f rw req w =
    (http.Error
       ("storage " +:+ cfg.TraceStorage (config (self w))
        +:+ " does not implement Purger interface")
       http.StatusInternalServerError rw,
     {| self := self w; store := store w; goroutines := goroutines w;
        trace := trace w ++ [EvAssertPurger false] |}).
Proof.
  intros Hp. unfold purgeHandler, purgeStorage. rewrite Hp. reflexivity.
Qed.

(** The router of a running service hands [POST /purge] to the handler. *)
Lemma serve_running (w : world) (f : storage.Factory Store) (req : http.Request) :
  running w f -> isPostPurge req ->
  serve req w =
    (Some (fst (purgeHandler f http.newResponseWriter req w)),
     snd (purgeHandler f http.newResponseWriter req w)).
Proof.
  intros (srv & Hsrv & Hh) [Hm Hp]. unfold serve. run_monad. rewrite Hsrv.
  unfold ServeHTTP. rewrite Hh.
  unfold mux.HandleFunc_Methods, mux.NewRouter. cbn [app mux.Match mux.path
    mux.methods mux.handlerFunc]. rewrite Hp, Hm.
  rewrite decide_True by reflexivity.
  change (mux.methodAllowed [http.MethodPost] http.MethodPost) with true.
  cbn [callHandlerFunc].
  destruct (purgeHandler f http.newResponseWriter req w); reflexivity.
Qed.

Lemma purgeHandler_self (f : storage.Factory Store)
    (rw : http.ResponseWriter) (req : http.Request) (w : world) :
  self (snd (purgeHandler f rw req w)) = self w.
Proof.
  unfold purgeHandler, purgeStorage.
  destruct (storage.asPurger f) as [p|]; run_monad; [|reflexivity].
  destruct (storage.Purge p (store w)) as [st [e|]]; reflexivity.
Qed.

Lemma ServeHTTP_self (r : Handler) (rw : http.ResponseWriter)
    (req : http.Request) (w : world) :
  self (snd (ServeHTTP r rw req w)) = self w.
Proof.
  unfold ServeHTTP.
  destruct (mux.Match r req false) as [[f]| |]; try reflexivity.
  apply purgeHandler_self.
Qed.

Lemma serve_self (req : http.Request) (w : world) :
  self (snd (serve req w)) = self w.
Proof.
  unfold serve. run_monad. destruct (server (self w)) as [srv|]; [|reflexivity].
  pose proof (ServeHTTP_self (http.Handler srv) http.newResponseWriter req w) as H.
  destruct (ServeHTTP (http.Handler srv) http.newResponseWriter req w).
  exact H.
Qed.

(** C4.  When the configured backend name is not in the host's registry,
    [Start] returns the resolution error (wrapping the host's lookup
    error) and the world after the call is the world before it: the
    service is unchanged, so a handle that was [nil] is still [nil], and
    no goroutine was launched. *)
Theorem Start_unregistered_backend (ctx : Ctx) (host : jaegerstorage.Host Store)
    (w : world) :
  jaegerstorage.factories host !! cfg.TraceStorage (config (self w)) = None ->
  exists e,
    Start ctx host w = (Some e, w) /\
    ResolutionError (cfg.TraceStorage (config (self w))) e /\
    errors.Unwrap e =
      Some (jaegerstorage.lookupError host (cfg.TraceStorage (config (self w)))) /\
    self (snd (Start ctx host w)) = self w /\
    goroutines (snd (Start ctx host w)) = goroutines w.
Proof.
  intros Hf. rewrite (Start_unresolved ctx host w Hf).
  eexists. split; [reflexivity|]. split; [eexists; reflexivity|].
  repeat split.
Qed.

(** C1, as amended.  When the configured name resolves to a backend
    without the purge capability, [Start] still returns [nil]: it stores
    the server for [":" + port] with the single route [POST /purge],
    launches the listener goroutine, and performs no capability check
    (the trace is unchanged). *)
Theorem Start_missing_capability_succeeds (ctx : Ctx)
    (host : jaegerstorage.Host Store) (w : world) (f : storage.Factory Store) :
  jaegerstorage.factories host !! cfg.TraceStorage (config (self w)) = Some f ->
  storage.asPurger f = None ->
  fst (Start ctx host w) = None /\
  server (self (snd (Start ctx host w))) = Some (startedServer (self w) f) /\
  goroutines (snd (Start ctx host w)) = goroutines w ++ [listenAndServeTask] /\
  trace (snd (Start ctx host w)) = trace w.
Proof.
  intros Hf _. rewrite (Start_resolved ctx host w f Hf). repeat split.
Qed.

(** C2.  While the service runs the server that [Start] built for
    backend [f], a [POST /purge] request for which the backend's purge
    succeeds is answered with status 200 and the body
    "Purge request processed successfully"; the backend's data is what
    the purge left. *)
Theorem purge_request_success (w : world) (f : storage.Factory Store)
    (p : storage.Purger Store) (req : http.Request) :
  running w f -> isPostPurge req ->
  storage.asPurger f = Some p ->
  snd (storage.Purge p (store w)) = None ->
  exists resp w',
    serve req w = (Some resp, w') /\
    http.status resp = Some http.StatusOK /\
    http.body resp = "Purge request processed successfully" /\
    store w' = fst (storage.Purge p (store w)).
Proof.
  intros Hrun Hreq Hp Hok.
  rewrite (serve_running w f req Hrun Hreq).
  rewrite (purgeHandler_success f p _ req w Hp Hok). cbn [fst snd].
  do 2 eexists. split; [reflexivity|]. repeat split.
Qed.

(** C3.  Under the same conditions, when the backend's purge fails with
    error [e] the answer has status 500 and its body is
    "error purging storage: ", the message of [e] and a newline; so the
    body contains the message of [e]. *)
Theorem purge_request_failure (w : world) (f : storage.Factory Store)
    (p : storage.Purger Store) (req : http.Request) (e : error) :
  running w f -> isPostPurge req ->
  storage.asPurger f = Some p ->
  snd (storage.Purge p (store w)) = Some e ->
  exists resp w',
    serve req w = (Some resp, w') /\
    http.status resp = Some http.StatusInternalServerError /\
    http.body resp = "error purging storage: " +:+ errors.Error e +:+ newline /\
    Contains (http.body resp) (errors.Error e).
Proof.
  intros Hrun Hreq Hp Hfail.
  rewrite (serve_running w f req Hrun Hreq).
  rewrite (purgeHandler_failure f p _ req w e Hp Hfail). cbn [fst snd].
  do 2 eexists. split; [reflexivity|]. split; [reflexivity|].
  split; [reflexivity|].
  exists "error purging storage: ", newline. reflexivity.
Qed.

(** C9.  Handling a request leaves the service itself (config, server
    handle, telemetry settings) as it was, whichever request it is and
    whether the backend's purge succeeds, fails or is unavailable; this
    holds for the handler closure and for a request served through the
    router. *)
Theorem purge_request_preserves_service (f : storage.Factory Store)
    (rw : http.ResponseWriter) (req : http.Request) (w : world) :
  self (snd (purgeHandler f rw req w)) = self w /\
  self (snd (serve req w)) = self w.
Proof. split; [apply purgeHandler_self | apply serve_self]. Qed.

(** *** Shutdown *)

Lemma Shutdown_self (ctx : Ctx) (w : world) :
  self (snd (Shutdown server_Shutdown ctx w)) = self w.
Proof.
  unfold Shutdown. run_monad. destruct (server (self w)) as [srv|]; [|reflexivity].
  destruct (server_Shutdown srv ctx); reflexivity.
Qed.

(** C7.  Without a server handle, in particular before any [Start],
    [Shutdown] returns [nil] and changes nothing: the world is the same
    and the server's close is not called. *)
Theorem Shutdown_without_listener (ctx : Ctx) (w : world) :
  server (self w) = None ->
  Shutdown server_Shutdown ctx w = (None, w).
Proof.
  intros Hnil. unfold Shutdown. run_monad. rewrite Hnil. reflexivity.
Qed.

(** C8.  With a server handle, [Shutdown] calls the server's graceful
    close once with the caller's context; when that fails with [cause],
    [Shutdown] returns the error
    "error shutting down cleaner server: " + cause, which unwraps to
    [cause]; when it succeeds, [Shutdown] returns [nil]. *)
Theorem Shutdown_with_listener (ctx : Ctx) (w : world)
    (srv : http.Server Handler) :
  server (self w) = Some srv ->
  trace (snd (Shutdown server_Shutdown ctx w)) = trace w ++ [EvServerShutdown ctx] /\
  match server_Shutdown srv ctx with
  | Some cause =>
      exists e,
        fst (Shutdown server_Shutdown ctx w) = Some e /\
        ShutdownError cause e /\
        errors.Unwrap e = Some cause /\
        errors.Is (Some e) (Some cause) = true
  | None => fst (Shutdown server_Shutdown ctx w) = None
  end.
Proof.
  intros Hsrv. unfold Shutdown. run_monad. rewrite Hsrv.
  destruct (server_Shutdown srv ctx) as [cause|]; cbn [fst snd trace].
  - split; [reflexivity|]. eexists. split; [reflexivity|].
    split; [reflexivity|]. split; [reflexivity|].
    unfold errors.Is, fmt.Errorf_w. cbn [errors.isChain].
    destruct (decide (wrapError _ cause = cause)); [reflexivity|].
    destruct cause; cbn [errors.isChain]; rewrite decide_True by reflexivity;
      reflexivity.
  - split; reflexivity.
Qed.

(** *** The listener goroutine *)

Lemma listenerTask_self (lasErr : option error) (w : world) :
  self (snd (listenerTask lasErr w)) = self w.
Proof.
  unfold listenerTask. destruct lasErr as [e|]; [|reflexivity].
  destruct (negb _); reflexivity.
Qed.

Lemma app_singleton_neq {A : Type} (l : list A) (x : A) : l ++ [x] <> l.
Proof.
  intros H. apply (f_equal (@length A)) in H. rewrite length_app in H.
  cbn in H. lia.
Qed.

(** C6.  When the goroutine's [ListenAndServe] returns, a fatal status
    event is reported exactly when the returned error is non-nil and is
    not [http.ErrServerClosed] in the sense of [errors.Is]; the event
    carries "error starting cleaner server: " wrapping that error.  A
    [nil] result or the intentional close changes nothing.  [Start]
    itself returns before that: it launches the goroutine only when it
    returns [nil], and what it returns otherwise is a resolution error,
    with the world untouched. *)
Theorem listener_failure_reported (lasErr : option error) (w : world) :
  ((exists ev,
      trace (snd (listenerTask lasErr w)) =
        trace w ++ [EvReportStatus (settings (self w)) ev]) <->
   (exists e, lasErr = Some e /\
              errors.Is (Some e) (Some http.ErrServerClosed) = false)) /\
  match lasErr with
  | Some e =>
      if errors.Is (Some e) (Some http.ErrServerClosed)
      then snd (listenerTask lasErr w) = w
      else trace (snd (listenerTask lasErr w)) =
             trace w ++ [EvReportStatus (settings (self w))
                           (component.NewFatalErrorEvent
                              (fmt.Errorf_w "error starting cleaner server: " e))]
  | None => snd (listenerTask lasErr w) = w
  end /\
  listenerTask (Some http.ErrServerClosed) w = (tt, w) /\
  (forall (ctx : Ctx) (host : jaegerstorage.Host Store),
      match fst (Start ctx host w) with
      | None =>
          goroutines (snd (Start ctx host w)) =
            goroutines w ++ [listenAndServeTask]
      | Some e =>
          ResolutionError (cfg.TraceStorage (config (self w))) e /\
          snd (Start ctx host w) = w
      end).
Proof.
  split; [|split; [|split]].
  - unfold listenerTask. destruct lasErr as [e|].
    + destruct (errors.Is (Some e) (Some http.ErrServerClosed)) eqn:His;
        cbn [negb]; run_monad.
      * split.
        -- intros [ev Hev]. symmetry in Hev.
           exfalso. exact (app_singleton_neq _ _ Hev).
        -- intros (e' & Heq & Hf). injection Heq as <-. congruence.
      * split.
        -- intros _. exists e. split; reflexivity || assumption.
        -- intros _. eexists. reflexivity.
    + split.
      * intros [ev Hev]. symmetry in Hev. cbn in Hev.
        exfalso. exact (app_singleton_neq _ _ Hev).
      * intros (e' & Heq & _). discriminate.
  - unfold listenerTask. destruct lasErr as [e|]; [|reflexivity].
    destruct (errors.Is (Some e) (Some http.ErrServerClosed)); reflexivity.
  - reflexivity.
  - intros ctx host.
    destruct (jaegerstorage.factories host !! cfg.TraceStorage (config (self w)))
      as [f|] eqn:Hf.
    + rewrite (Start_resolved ctx host w f Hf). reflexivity.
    + rewrite (Start_unresolved ctx host w Hf). cbn [fst snd].
      split; [eexists; reflexivity | reflexivity].
Qed.

(** *** Histories *)

Lemma run_cons (c : Call) (cs : list Call) (w : world) :
  run server_Shutdown (c :: cs) w =
    ((c, fst (exec server_Shutdown c w))
       :: fst (run server_Shutdown cs (snd (exec server_Shutdown c w))),
     snd (run server_Shutdown cs (snd (exec server_Shutdown c w)))).
Proof.
  cbn [run]. unfold mbind, M_bind, mret, M_ret.
  destruct (exec server_Shutdown c w) as [o w1]. cbn [fst snd].
  destruct (run server_Shutdown cs w1) as [h w2]. reflexivity.
Qed.

Lemma runGoroutine_self (lasErr : option error) (w : world) :
  self (snd (runGoroutine lasErr w)) = self w.
Proof.
  unfold runGoroutine. destruct (goroutines w) as [|[] rest]; [reflexivity|].
  rewrite listenerTask_self. reflexivity.
Qed.

(** One call: the handle is [nil] afterwards exactly when it was [nil]
    before and the call is not a [Start] that returned [nil]. *)
Lemma exec_server (c : Call) (w : world) :
  server (self (snd (exec server_Shutdown c w))) = None <->
  server (self w) = None /\ isStartOK (c, fst (exec server_Shutdown c w)) = false.
Proof.
  destruct c as [ctx host|ctx|req|lasErr]; cbn [exec];
    unfold mbind, M_bind, mret, M_ret.
  - destruct (jaegerstorage.factories host !! cfg.TraceStorage (config (self w)))
      as [f|] eqn:Hf.
    + rewrite (Start_resolved ctx host w f Hf). cbn. split; [discriminate|].
      intros [_ ?]; discriminate.
    + rewrite (Start_unresolved ctx host w Hf). cbn. tauto.
  - pose proof (Shutdown_self ctx w) as H.
    destruct (Shutdown server_Shutdown ctx w) as [o w1]. cbn in *. rewrite H.
    tauto.
  - pose proof (serve_self req w) as H.
    destruct (serve req w) as [o w1]. cbn in *. rewrite H. tauto.
  - pose proof (runGoroutine_self lasErr w) as H.
    destruct (runGoroutine lasErr w) as [o w1]. cbn in *. rewrite H. tauto.
Qed.

Lemma run_server (cs : list Call) (w : world) :
  server (self (snd (run server_Shutdown cs w))) = None <->
  server (self w) = None /\
  startSucceeded (fst (run server_Shutdown cs w)) = false.
Proof.
  revert w. induction cs as [|c cs IH]; intros w.
  - cbn. tauto.
  - rewrite run_cons. cbn [fst snd]. unfold startSucceeded. cbn [existsb].
    rewrite IH, exec_server, orb_false_iff. unfold startSucceeded. tauto.
Qed.

(** One call leaves the service alone or is a [Start] that stored the
    server it assembled. *)
Lemma exec_self (c : Call) (w : world) :
  self (snd (exec server_Shutdown c w)) = self w \/
  exists f,
    self (snd (exec server_Shutdown c w)) =
      {| config := config (self w);
         server := Some (startedServer (self w) f);
         settings := settings (self w) |}.
Proof.
  destruct c as [ctx host|ctx|req|lasErr]; cbn [exec];
    unfold mbind, M_bind, mret, M_ret.
  - destruct (jaegerstorage.factories host !! cfg.TraceStorage (config (self w)))
      as [f|] eqn:Hf.
    + right. exists f. rewrite (Start_resolved ctx host w f Hf). reflexivity.
    + left. rewrite (Start_unresolved ctx host w Hf). reflexivity.
  - left. pose proof (Shutdown_self ctx w) as H.
    destruct (Shutdown server_Shutdown ctx w). exact H.
  - left. pose proof (serve_self req w) as H.
    destruct (serve req w). exact H.
  - left. pose proof (runGoroutine_self lasErr w) as H.
    destruct (runGoroutine lasErr w). exact H.
Qed.

(** Along every history, the server the service holds was assembled by
    [Start], so it routes [POST /purge] to [purgeHandler]. *)
Lemma run_builtByStart (cs : list Call) (w : world) :
  builtByStart w -> builtByStart (snd (run server_Shutdown cs w)).
Proof.
  revert w. induction cs as [|c cs IH]; intros w Hw; [exact Hw|].
  rewrite run_cons. cbn [snd]. apply IH.
  destruct (exec_self c w) as [Heq|[f Heq]]; unfold builtByStart; rewrite Heq.
  - exact Hw.
  - cbn [server]. intros srv [= <-]. exists f. reflexivity.
Qed.

Lemma builtByStart_running (w : world) (srv : http.Server Handler) :
  builtByStart w -> server (self w) = Some srv -> exists f, running w f.
Proof.
  intros Hw Hsrv. destruct (Hw srv Hsrv) as [f ->].
  exists f, (startedServer (self w) f). split; [exact Hsrv | reflexivity].
Qed.

(** C5, as amended.  The server handle is [nil] after construction and,
    along every history of calls on a new service, it is [nil] exactly
    as long as no [Start] has returned [nil].  Every [Start] that
    returns [nil] sets it, to the server assembled for the resolved
    backend, and a [Start] that fails leaves the service as it was.
    Nothing else changes the service, hence the handle: not [Shutdown]
    (so the handle set by [Start] is kept after it), not the handling of
    a request, whichever it is, and not the listener goroutine, whatever
    [ListenAndServe] returned. *)
Theorem server_handle_set_by_Start_only (conf : cfg.Config)
    (ts : TelemetrySettings) (st : Store) (cs : list Call) :
  server (newStorageCleaner (Store := Store) conf ts) = None /\
  (server (self (snd (run server_Shutdown cs (newWorld conf ts st)))) = None <->
   startSucceeded (fst (run server_Shutdown cs (newWorld conf ts st))) = false) /\
  (forall (ctx : Ctx) (host : jaegerstorage.Host Store) (w : world),
      match fst (Start ctx host w) with
      | None =>
          exists f,
            jaegerstorage.factories host !! cfg.TraceStorage (config (self w))
              = Some f /\
            self (snd (Start ctx host w)) =
              {| config := config (self w);
                 server := Some (startedServer (self w) f);
                 settings := settings (self w) |}
      | Some _ => self (snd (Start ctx host w)) = self w
      end) /\
  (forall (ctx : Ctx) (w : world),
      self (snd (Shutdown server_Shutdown ctx w)) = self w) /\
  (forall (f : storage.Factory Store) (rw : http.ResponseWriter)
          (req : http.Request) (w : world),
      self (snd (purgeHandler f rw req w)) = self w) /\
  (forall (req : http.Request) (w : world),
      self (snd (serve req w)) = self w) /\
  (forall (lasErr : option error) (w : world),
      self (snd (listenerTask lasErr w)) = self w) /\
  (forall (lasErr : option error) (w : world),
      self (snd (runGoroutine lasErr w)) = self w).
Proof.
  split; [reflexivity|]. split; [rewrite run_server; cbn; tauto|].
  split.
  { intros ctx host w.
    destruct (jaegerstorage.factories host
                !! cfg.TraceStorage (config (self w))) as [f|] eqn:Hf.
    - rewrite (Start_resolved ctx host w f Hf). cbn [fst snd self].
      exists f. split; reflexivity.
    - rewrite (Start_unresolved ctx host w Hf). reflexivity. }
  split; [apply Shutdown_self|].
  split; [apply purgeHandler_self|].
  split; [apply serve_self|].
  split; [apply listenerTask_self | apply runGoroutine_self].
Qed.

(** *** Requests to a backend without the purge capability *)

Lemma countAssert_snoc (t : list (@Event TelemetrySettings Ctx)) (ok : bool) :
  countAssert (t ++ [EvAssertPurger ok]) = S (countAssert t).
Proof.
  unfold countAssert. rewrite List.filter_app, length_app. cbn. lia.
Qed.

Lemma countPurge_snoc_assert (t : list (@Event TelemetrySettings Ctx)) (ok : bool) :
  countPurge (t ++ [EvAssertPurger ok]) = countPurge t.
Proof.
  unfold countPurge. rewrite List.filter_app, length_app. cbn. lia.
Qed.

Lemma exec_request_no_purger (f : storage.Factory Store)
    (req : http.Request) (w : world) :
  running w f -> storage.asPurger f = None -> isPostPurge req ->
  exec server_Shutdown (CallRequest req) w =
    (Responded
       (Some (http.Error
                ("storage " +:+ cfg.TraceStorage (config (self w))
                 +:+ " does not implement Purger interface")
                http.StatusInternalServerError http.newResponseWriter)),
     {| self := self w; store := store w; goroutines := goroutines w;
        trace := trace w ++ [EvAssertPurger false] |}).
Proof.
  intros Hrun Hnone Hreq. cbn [exec]. unfold mbind, M_bind, mret, M_ret.
  rewrite (serve_running w f req Hrun Hreq).
  rewrite (purgeHandler_no_purger f _ req w Hnone). reflexivity.
Qed.

Lemma requests_without_purger (f : storage.Factory Store)
    (reqs : list http.Request) (w : world) :
  running w f -> storage.asPurger f = None -> Forall isPostPurge reqs ->
  Forall (fun co => answersNoPurger (cfg.TraceStorage (config (self w))) (snd co))
    (fst (run server_Shutdown (map CallRequest reqs) w)) /\
  length (fst (run server_Shutdown (map CallRequest reqs) w)) = length reqs /\
  store (snd (run server_Shutdown (map CallRequest reqs) w)) = store w /\
  countPurge (trace (snd (run server_Shutdown (map CallRequest reqs) w)))
    = countPurge (trace w) /\
  countAssert (trace (snd (run server_Shutdown (map CallRequest reqs) w)))
    = (countAssert (trace w) + length reqs)%nat.
Proof.
  intros Hrun Hnone Hall. revert w Hrun.
  induction Hall as [|req reqs Hreq Hall IH]; intros w Hrun.
  - cbn. repeat split; [constructor | lia].
  - cbn [map]. rewrite run_cons.
    rewrite (exec_request_no_purger f req w Hrun Hnone Hreq). cbn [fst snd].
    assert (Hrun1 : running
              {| self := self w; store := store w; goroutines := goroutines w;
                 trace := trace w ++ [EvAssertPurger false] |} f) by exact Hrun.
    destruct (IH _ Hrun1) as (Hans & Hlen & Hst & Hpurge & Hassert).
    cbn [self store trace] in Hans, Hlen, Hst, Hpurge, Hassert.
    repeat split.
    + constructor; [|exact Hans].
      eexists. cbn [snd]. split; [reflexivity|]. split; reflexivity.
    + cbn [length]. rewrite Hlen. reflexivity.
    + exact Hst.
    + rewrite Hpurge. apply countPurge_snoc_assert.
    + rewrite Hassert, countAssert_snoc. cbn [length]. lia.
Qed.

(** C10.  When the configured name resolves to a backend [f] without
    the purge capability, [Start] returns [nil] and the service runs the
    server for [f]; every [POST /purge] of a following sequence of
    requests is then answered with status 500 and the body
    "storage <name> does not implement Purger interface" (and a
    newline), the backend's data is untouched and no [Purge] call is
    made, and the type assertion is executed once per request. *)
Theorem missing_capability_checked_per_request (ctx : Ctx)
    (host : jaegerstorage.Host Store) (w0 : world) (f : storage.Factory Store)
    (reqs : list http.Request) :
  jaegerstorage.factories host !! cfg.TraceStorage (config (self w0)) = Some f ->
  storage.asPurger f = None ->
  Forall isPostPurge reqs ->
  fst (Start ctx host w0) = None /\
  running (snd (Start ctx host w0)) f /\
  Forall (fun co => answersNoPurger (cfg.TraceStorage (config (self w0))) (snd co))
    (fst (run server_Shutdown (map CallRequest reqs) (snd (Start ctx host w0)))) /\
  length (fst (run server_Shutdown (map CallRequest reqs) (snd (Start ctx host w0))))
    = length reqs /\
  store (snd (run server_Shutdown (map CallRequest reqs) (snd (Start ctx host w0))))
    = store w0 /\
  countPurge
    (trace (snd (run server_Shutdown (map CallRequest reqs) (snd (Start ctx host w0)))))
    = countPurge (trace w0) /\
  countAssert
    (trace (snd (run server_Shutdown (map CallRequest reqs) (snd (Start ctx host w0)))))
    = (countAssert (trace w0) + length reqs)%nat.
Proof.
  intros Hf Hnone Hall.
  pose proof (Start_running ctx host w0 f Hf) as Hrun.
  pose proof (requests_without_purger f reqs _ Hrun Hnone Hall) as Hreqs.
  rewrite (Start_resolved ctx host w0 f Hf) in *.
  cbn [fst snd self config store trace] in *.
  split; [reflexivity|]. split; [exact Hrun|]. exact Hreqs.
Qed.

End Properties.

(** ** The theorems at the sample inputs *)

Lemma Start_unregistered_backend_witness :
  jaegerstorage.factories hostEmpty !! cfg.TraceStorage (config (self sampleWorld))
    = None /\
  server (self sampleWorld) = None /\
  exists e,
    Start true hostEmpty sampleWorld = (Some e, sampleWorld) /\
    ResolutionError (cfg.TraceStorage (config (self sampleWorld))) e /\
    errors.Unwrap e =
      Some (jaegerstorage.lookupError hostEmpty
              (cfg.TraceStorage (config (self sampleWorld)))) /\
    self (snd (Start true hostEmpty sampleWorld)) = self sampleWorld /\
    goroutines (snd (Start true hostEmpty sampleWorld)) = goroutines sampleWorld.
Proof.
  split; [reflexivity|]. split; [reflexivity|].
  apply (Start_unregistered_backend true hostEmpty sampleWorld). reflexivity.
Defined.

Lemma Start_missing_capability_succeeds_witness :
  jaegerstorage.factories (hostWith factoryNoPurge)
    !! cfg.TraceStorage (config (self sampleWorld)) = Some factoryNoPurge /\
  storage.asPurger factoryNoPurge = None /\
  fst (Start true (hostWith factoryNoPurge) sampleWorld) = None /\
  server (self (snd (Start true (hostWith factoryNoPurge) sampleWorld)))
    = Some (startedServer (self sampleWorld) factoryNoPurge) /\
  goroutines (snd (Start true (hostWith factoryNoPurge) sampleWorld))
    = goroutines sampleWorld ++ [listenAndServeTask] /\
  trace (snd (Start true (hostWith factoryNoPurge) sampleWorld)) = trace sampleWorld.
Proof.
  split; [reflexivity|]. split; [reflexivity|].
  apply (Start_missing_capability_succeeds true (hostWith factoryNoPurge)
           sampleWorld factoryNoPurge); reflexivity.
Defined.

(** C1, as stated, fails: for a registered backend without the purge
    capability [Start] returns no error, and it launches the listener
    goroutine. *)
Lemma Start_missing_capability_not_rejected :
  jaegerstorage.factories (hostWith factoryNoPurge)
    !! cfg.TraceStorage (config (self sampleWorld)) = Some factoryNoPurge /\
  storage.asPurger factoryNoPurge = None /\
  ~ (exists e, fst (Start true (hostWith factoryNoPurge) sampleWorld) = Some e) /\
  goroutines (snd (Start true (hostWith factoryNoPurge) sampleWorld))
    <> goroutines sampleWorld.
Proof.
  split; [reflexivity|]. split; [reflexivity|]. split.
  - intros [e He]. vm_compute in He. discriminate.
  - vm_compute. discriminate.
Qed.

Lemma purge_request_success_witness :
  running (startedWorld factoryOK) factoryOK /\
  isPostPurge postPurge /\
  storage.asPurger factoryOK = Some purgerOK /\
  snd (storage.Purge purgerOK (store (startedWorld factoryOK))) = None /\
  exists resp w',
    serve postPurge (startedWorld factoryOK) = (Some resp, w') /\
    http.status resp = Some http.StatusOK /\
    http.body resp = "Purge request processed successfully" /\
    store w' = fst (storage.Purge purgerOK (store (startedWorld factoryOK))).
Proof.
  assert (Hrun : running (startedWorld factoryOK) factoryOK).
  { exists (startedServer (self sampleWorld) factoryOK). split; reflexivity. }
  assert (Hreq : isPostPurge postPurge) by (split; reflexivity).
  split; [exact Hrun|]. split; [exact Hreq|].
  split; [reflexivity|]. split; [reflexivity|].
  apply (purge_request_success (startedWorld factoryOK) factoryOK purgerOK
           postPurge Hrun Hreq); reflexivity.
Defined.

Lemma purge_request_failure_witness :
  running (startedWorld factoryFailing) factoryFailing /\
  isPostPurge postPurge /\
  storage.asPurger factoryFailing = Some purgerFailing /\
  snd (storage.Purge purgerFailing (store (startedWorld factoryFailing)))
    = Some diskError /\
  exists resp w',
    serve postPurge (startedWorld factoryFailing) = (Some resp, w') /\
    http.status resp = Some http.StatusInternalServerError /\
    http.body resp
      = "error purging storage: " +:+ errors.Error diskError +:+ newline /\
    Contains (http.body resp) (errors.Error diskError).
Proof.
  assert (Hrun : running (startedWorld factoryFailing) factoryFailing).
  { exists (startedServer (self sampleWorld) factoryFailing). split; reflexivity. }
  assert (Hreq : isPostPurge postPurge) by (split; reflexivity).
  split; [exact Hrun|]. split; [exact Hreq|].
  split; [reflexivity|]. split; [reflexivity|].
  apply (purge_request_failure (startedWorld factoryFailing) factoryFailing
           purgerFailing postPurge diskError Hrun Hreq); reflexivity.
Defined.

Lemma Shutdown_without_listener_witness :
  server (self sampleWorld) = None /\
  Shutdown sampleShutdown false sampleWorld = (None, sampleWorld).
Proof.
  split; [reflexivity|].
  apply (Shutdown_without_listener sampleShutdown false sampleWorld). reflexivity.
Defined.

Lemma Shutdown_with_listener_witness :
  server (self (startedWorld factoryOK))
    = Some (startedServer (self sampleWorld) factoryOK) /\
  trace (snd (Shutdown sampleShutdown false (startedWorld factoryOK)))
    = trace (startedWorld factoryOK) ++ [EvServerShutdown false] /\
  match sampleShutdown (startedServer (self sampleWorld) factoryOK) false with
  | Some cause =>
      exists e,
        fst (Shutdown sampleShutdown false (startedWorld factoryOK)) = Some e /\
        ShutdownError cause e /\
        errors.Unwrap e = Some cause /\
        errors.Is (Some e) (Some cause) = true
  | None => fst (Shutdown sampleShutdown false (startedWorld factoryOK)) = None
  end.
Proof.
  split; [reflexivity|].
  apply (Shutdown_with_listener sampleShutdown false (startedWorld factoryOK)
           (startedServer (self sampleWorld) factoryOK)).
  reflexivity.
Defined.

(** C5, as stated, fails: after a [Start] that returned [nil] and a
    completed [Shutdown] the history is outside the window, yet the
    server handle is still set. *)
Lemma server_kept_after_Shutdown :
  ~ (betweenStartAndStop
       (fst (run sampleShutdown
               [CallStart true (hostWith factoryOK); CallShutdown true]
               sampleWorld)) = false ->
     server (self (snd (run sampleShutdown
                          [CallStart true (hostWith factoryOK); CallShutdown true]
                          sampleWorld))) = None).
Proof.
  intros H. specialize (H eq_refl). vm_compute in H. discriminate.
Qed.

Lemma missing_capability_checked_per_request_witness :
  jaegerstorage.factories (hostWith factoryNoPurge)
    !! cfg.TraceStorage (config (self sampleWorld)) = Some factoryNoPurge /\
  storage.asPurger factoryNoPurge = None /\
  Forall isPostPurge [postPurge; postPurge] /\
  fst (Start true (hostWith factoryNoPurge) sampleWorld) = None /\
  Forall (fun co => answersNoPurger "some_storage" (snd co))
    (fst (run sampleShutdown (map CallRequest [postPurge; postPurge])
            (startedWorld factoryNoPurge))) /\
  countPurge
    (trace (snd (run sampleShutdown (map CallRequest [postPurge; postPurge])
                   (startedWorld factoryNoPurge)))) = 0%nat /\
  countAssert
    (trace (snd (run sampleShutdown (map CallRequest [postPurge; postPurge])
                   (startedWorld factoryNoPurge)))) = 2%nat.
Proof.
  assert (Hall : Forall isPostPurge [postPurge; postPurge]).
  { repeat constructor. }
  split; [reflexivity|]. split; [reflexivity|]. split; [exact Hall|].
  destruct (missing_capability_checked_per_request sampleShutdown true
              (hostWith factoryNoPurge) sampleWorld factoryNoPurge
              [postPurge; postPurge] eq_refl eq_refl Hall)
    as (Hret & _ & Hans & _ & _ & Hpurge & Hassert).
  split; [exact Hret|]. split; [exact Hans|].
  split; [exact Hpurge | exact Hassert].
Defined.

(** ** Further properties of the extension *)

Section MoreProperties.

Context {Store TelemetrySettings Ctx : Type}.
Variable server_Shutdown : http.Server (@Handler Store) -> Ctx -> option error.

Local Abbreviation world := (@World Store TelemetrySettings Ctx).

Ltac step_monad :=
  unfold mbind, M_bind, mret, M_ret, getSelf, setServer, go, emit,
    ReportStatus, callServerShutdown, callPurge in *;
  cbn [fst snd self store goroutines trace config server settings] in *.

(** *** Requests other than POST /purge *)

Lemma isPostPurgeb_spec (req : http.Request) :
  isPostPurgeb req = true <-> isPostPurge req.
Proof.
  unfold isPostPurgeb, isPostPurge.
  rewrite andb_true_iff, !bool_decide_eq_true. reflexivity.
Qed.

Lemma serve_not_post_purge (w : world) (f : storage.Factory Store)
    (req : http.Request) :
  running w f -> ~ isPostPurge req -> snd (serve req w) = w.
Proof.
  intros (srv & Hsrv & Hh) Hnot. unfold serve. step_monad. rewrite Hsrv.
  unfold ServeHTTP. rewrite Hh.
  unfold mux.HandleFunc_Methods, mux.NewRouter.
  cbn [app mux.Match mux.path mux.methods mux.handlerFunc mux.methodAllowed].
  destruct (decide (URL = http.Path req)) as [Hp|Hp]; [|reflexivity].
  destruct (bool_decide_reflect (http.Method req ∈ [http.MethodPost]))
    as [Hm|Hm]; [|reflexivity].
  exfalso. apply Hnot. split; [|congruence].
  apply list_elem_of_singleton in Hm. exact Hm.
Qed.

(** X1.  While the service runs the server that [Start] built, a request
    that is not [POST /purge] never reaches the backend: the world after
    it is the world before it (no capability check, no [Purge] call, the
    backend's data as it was). *)
Theorem not_post_purge_leaves_world (w : world) (f : storage.Factory Store)
    (req : http.Request) :
  running w f -> ~ isPostPurge req ->
  snd (serve req w) = w /\
  countPurge (trace (snd (serve req w))) = countPurge (trace w) /\
  store (snd (serve req w)) = store w.
Proof.
  intros Hrun Hnot. rewrite (serve_not_post_purge w f req Hrun Hnot).
  repeat split.
Qed.

(** X2.  A request for [/purge] with a method other than POST is answered
    by the router with status 405 and an empty body, and the world is
    unchanged. *)
Theorem wrong_method_rejected (w : world) (f : storage.Factory Store)
    (req : http.Request) :
  running w f ->
  http.Path req = URL -> http.Method req <> http.MethodPost ->
  exists resp,
    serve req w = (Some resp, w) /\
    http.status resp = Some http.StatusMethodNotAllowed /\
    http.body resp = "".
Proof.
  intros (srv & Hsrv & Hh) Hp Hm. unfold serve. step_monad. rewrite Hsrv.
  unfold ServeHTTP. rewrite Hh.
  unfold mux.HandleFunc_Methods, mux.NewRouter.
  cbn [app mux.Match mux.path mux.methods mux.handlerFunc mux.methodAllowed].
  rewrite Hp. rewrite decide_True by reflexivity.
  rewrite bool_decide_eq_false_2.
  - eexists. split; [reflexivity|]. split; reflexivity.
  - intros Hin. apply list_elem_of_singleton in Hin. contradiction.
Qed.

(** *** One Purge per request *)

Lemma countPurge_snoc (t : list (@Event TelemetrySettings Ctx))
    (e : @Event TelemetrySettings Ctx) :
  countPurge (t ++ [e]) = (countPurge t + (if isPurge e then 1 else 0))%nat.
Proof.
  unfold countPurge. rewrite List.filter_app, length_app. cbn.
  destruct (isPurge e); reflexivity.
Qed.

Lemma exec_request_purger (f : storage.Factory Store) (p : storage.Purger Store)
    (req : http.Request) (w : world) :
  running w f -> storage.asPurger f = Some p -> isPostPurge req ->
  exec server_Shutdown (CallRequest req) w =
    (Responded (Some (purgeAnswer (snd (storage.Purge p (store w))))),
     {| self := self w; store := fst (storage.Purge p (store w));
        goroutines := goroutines w;
        trace := (trace w ++ [EvAssertPurger true]) ++ [EvPurge] |}).
Proof.
  intros Hrun Hp Hreq. cbn [exec]. unfold mbind, M_bind, mret, M_ret.
  rewrite (serve_running w f req Hrun Hreq).
  destruct (snd (storage.Purge p (store w))) as [e|] eqn:Hres.
  - rewrite (purgeHandler_failure f p _ req w e Hp Hres). reflexivity.
  - rewrite (purgeHandler_success f p _ req w Hp Hres). reflexivity.
Qed.

(** X3.  A sequence of [POST /purge] requests to a backend with the
    purge capability calls [Purge] once per request, in order: the
    answers are those of the successive [Purge] results (200, or 500
    with the error text), a failed purge is not retried and does not
    stop the later ones, and the backend's data is what the successive
    purges leave. *)
Theorem requests_purge_in_order (f : storage.Factory Store)
    (p : storage.Purger Store) (reqs : list http.Request) (w : world) :
  running w f -> storage.asPurger f = Some p -> Forall isPostPurge reqs ->
  map snd (fst (run server_Shutdown (map CallRequest reqs) w)) =
    map (fun err => Responded (Some (purgeAnswer err)))
        (fst (purgeSeq p (length reqs) (store w))) /\
  store (snd (run server_Shutdown (map CallRequest reqs) w)) =
    snd (purgeSeq p (length reqs) (store w)) /\
  countPurge (trace (snd (run server_Shutdown (map CallRequest reqs) w))) =
    (countPurge (trace w) + length reqs)%nat.
Proof.
  intros Hrun Hp Hall. revert w Hrun.
  induction Hall as [|req reqs Hreq Hall IH]; intros w Hrun.
  - cbn. repeat split. lia.
  - cbn [map length]. rewrite run_cons.
    rewrite (exec_request_purger f p req w Hrun Hp Hreq). cbn [fst snd].
    assert (Hrun1 : running
              {| self := self w; store := fst (storage.Purge p (store w));
                 goroutines := goroutines w;
                 trace := (trace w ++ [EvAssertPurger true]) ++ [EvPurge] |} f)
      by exact Hrun.
    destruct (IH _ Hrun1) as (Hans & Hst & Hcount).
    cbn [store trace] in Hans, Hst, Hcount.
    cbn [purgeSeq]. destruct (storage.Purge p (store w)) as [st1 err].
    cbn [fst snd] in *.
    destruct (purgeSeq p (length reqs) st1) as [errs st2]. cbn [fst snd] in *.
    split; [|split].
    + cbn [map]. rewrite Hans. reflexivity.
    + exact Hst.
    + rewrite Hcount, !countPurge_snoc. cbn [isPurge]. lia.
Qed.

(** *** Start and Shutdown called again *)

(** X4.  [Start] does not guard against a second call: when both calls
    resolve their backend, the second one returns [nil] as well,
    replaces the server handle by the server for the second backend and
    launches a second listener goroutine. *)
Theorem Start_twice (ctx1 ctx2 : Ctx) (host1 host2 : jaegerstorage.Host Store)
    (w : world) (f1 f2 : storage.Factory Store) :
  jaegerstorage.factories host1 !! cfg.TraceStorage (config (self w)) = Some f1 ->
  jaegerstorage.factories host2 !! cfg.TraceStorage (config (self w)) = Some f2 ->
  fst (Start ctx2 host2 (snd (Start ctx1 host1 w))) = None /\
  server (self (snd (Start ctx2 host2 (snd (Start ctx1 host1 w))))) =
    Some (startedServer (self w) f2) /\
  goroutines (snd (Start ctx2 host2 (snd (Start ctx1 host1 w)))) =
    goroutines w ++ [listenAndServeTask; listenAndServeTask] /\
  running (snd (Start ctx2 host2 (snd (Start ctx1 host1 w)))) f2.
Proof.
  intros H1 H2. rewrite (Start_resolved ctx1 host1 w f1 H1). cbn [snd].
  rewrite (Start_resolved ctx2 host2
             {| self := {| config := config (self w);
                           server := Some (startedServer (self w) f1);
                           settings := settings (self w) |};
                store := store w;
                goroutines := goroutines w ++ [listenAndServeTask];
                trace := trace w |} f2 H2).
  cbn [fst snd self server goroutines config].
  split; [reflexivity|]. split; [reflexivity|].
  split; [rewrite <- app_assoc; reflexivity|].
  eexists. split; reflexivity.
Qed.

Lemma Shutdown_started (ctx : Ctx) (w : world) (srv : http.Server Handler) :
  server (self w) = Some srv ->
  Shutdown server_Shutdown ctx w =
    (match server_Shutdown srv ctx with
     | Some e => Some (fmt.Errorf_w "error shutting down cleaner server: " e)
     | None => None
     end,
     {| self := self w; store := store w; goroutines := goroutines w;
        trace := trace w ++ [EvServerShutdown ctx] |}).
Proof.
  intros Hsrv. unfold Shutdown. step_monad. rewrite Hsrv.
  destruct (server_Shutdown srv ctx); reflexivity.
Qed.

Lemma exec_Shutdown_started (ctx : Ctx) (w : world) (srv : http.Server Handler) :
  server (self w) = Some srv ->
  exec server_Shutdown (CallShutdown ctx) w =
    (Returned
       match server_Shutdown srv ctx with
       | Some e => Some (fmt.Errorf_w "error shutting down cleaner server: " e)
       | None => None
       end,
     {| self := self w; store := store w; goroutines := goroutines w;
        trace := trace w ++ [EvServerShutdown ctx] |}).
Proof.
  intros Hsrv. cbn [exec]. unfold mbind, M_bind, mret, M_ret.
  rewrite (Shutdown_started ctx w srv Hsrv). reflexivity.
Qed.

(** X5.  [Shutdown] keeps the server handle, so it is not a no-op the
    second time: each of a sequence of [Shutdown] calls on a started
    service calls the close of the same server again with its own
    context and returns what that close returned (wrapped on failure). *)
Theorem Shutdown_repeated (ctxs : list Ctx) (w : world)
    (srv : http.Server Handler) :
  server (self w) = Some srv ->
  map snd (fst (run server_Shutdown (map CallShutdown ctxs) w)) =
    map (fun ctx =>
           Returned
             match server_Shutdown srv ctx with
             | Some e =>
                 Some (fmt.Errorf_w "error shutting down cleaner server: " e)
             | None => None
             end) ctxs /\
  trace (snd (run server_Shutdown (map CallShutdown ctxs) w)) =
    trace w ++ map EvServerShutdown ctxs /\
  self (snd (run server_Shutdown (map CallShutdown ctxs) w)) = self w.
Proof.
  revert w. induction ctxs as [|ctx ctxs IH]; intros w Hsrv.
  - cbn. rewrite app_nil_r. repeat split.
  - cbn [map]. rewrite run_cons.
    rewrite (exec_Shutdown_started ctx w srv Hsrv). cbn [fst snd].
    destruct (IH {| self := self w; store := store w; goroutines := goroutines w;
                    trace := trace w ++ [EvServerShutdown ctx] |} Hsrv)
      as (Hres & Htrace & Hself).
    cbn [self trace] in Hres, Htrace, Hself.
    split; [|split].
    + cbn [map snd]. rewrite Hres. reflexivity.
    + rewrite Htrace, <- app_assoc. reflexivity.
    + exact Hself.
Qed.

(** *** Error chains *)

Lemma isChain_wrapError (msg : string) (e target : error) :
  errors.isChain e target = true ->
  errors.isChain (wrapError msg e) target = true.
Proof.
  intros H. cbn [errors.isChain].
  destruct (decide (wrapError msg e = target)); [reflexivity | exact H].
Qed.

Lemma isChain_refl (e : error) : errors.isChain e e = true.
Proof. destruct e; cbn [errors.isChain]; rewrite decide_True; reflexivity. Qed.

Lemma isChain_wraps (msgs : list string) (e : error) :
  errors.isChain (foldr wrapError e msgs) e = true.
Proof.
  induction msgs as [|msg msgs IH]; cbn [foldr].
  - apply isChain_refl.
  - apply isChain_wrapError, IH.
Qed.

(** X6.  The goroutine tests the listener's error with [errors.Is], not
    with [==]: an error that wraps [http.ErrServerClosed], however
    deeply, counts as the intentional close, and nothing is reported. *)
Theorem listener_wrapped_close_not_reported (msgs : list string) (w : world) :
  listenerTask (Some (foldr wrapError http.ErrServerClosed msgs)) w = (tt, w).
Proof.
  unfold listenerTask, errors.Is. rewrite isChain_wraps. reflexivity.
Qed.

(** X7.  The error of [Shutdown] keeps the chain of its cause: whatever
    target the server's close error matches under [errors.Is] (a
    context deadline, say), the error [Shutdown] returns matches too. *)
Theorem Shutdown_error_chain (ctx : Ctx) (w : world)
    (srv : http.Server Handler) (cause target : error) :
  server (self w) = Some srv ->
  server_Shutdown srv ctx = Some cause ->
  errors.Is (Some cause) (Some target) = true ->
  exists e,
    fst (Shutdown server_Shutdown ctx w) = Some e /\
    errors.Is (Some e) (Some target) = true /\
    errors.Error e =
      "error shutting down cleaner server: " +:+ errors.Error cause.
Proof.
  intros Hsrv Hclose His. rewrite (Shutdown_started ctx w srv Hsrv), Hclose.
  cbn [fst]. eexists. split; [reflexivity|]. split; [|reflexivity].
  cbn [errors.Is] in *. apply isChain_wrapError, His.
Qed.

(** *** Purge only through POST /purge *)

Lemma exec_builtByStart (c : Call) (w : world) :
  builtByStart w -> builtByStart (snd (exec server_Shutdown c w)).
Proof.
  intros Hw.
  destruct (exec_self server_Shutdown c w) as [Heq|[f Heq]];
    unfold builtByStart; rewrite Heq.
  - exact Hw.
  - cbn [server]. intros srv [= <-]. exists f. reflexivity.
Qed.

Lemma countPostPurge_cons (c : @Call Store Ctx) (cs : list Call) :
  countPostPurge (c :: cs) = (countPostPurge [c] + countPostPurge cs)%nat.
Proof. destruct c; cbn [countPostPurge]; lia. Qed.

(** One call makes one [Purge] call at most, and none unless it is a
    [POST /purge] request; otherwise the backend's data stays. *)
Lemma exec_purge_bound (c : Call) (w : world) :
  builtByStart w ->
  (countPurge (trace (snd (exec server_Shutdown c w)))
     <= countPurge (trace w) + countPostPurge [c])%nat /\
  (countPostPurge [c] = 0%nat ->
   store (snd (exec server_Shutdown c w)) = store w /\
   countPurge (trace (snd (exec server_Shutdown c w))) = countPurge (trace w)).
Proof.
  intros Hw. destruct c as [ctx host|ctx|req|lasErr].
  - cbn [exec countPostPurge]. unfold mbind, M_bind, mret, M_ret.
    destruct (jaegerstorage.factories host !! cfg.TraceStorage (config (self w)))
      as [f|] eqn:Hf.
    + rewrite (Start_resolved ctx host w f Hf). cbn [fst snd trace store]; split; [lia|tauto].
    + rewrite (Start_unresolved ctx host w Hf). cbn [fst snd trace store]; split; [lia|tauto].
  - cbn [countPostPurge].
    destruct (server (self w)) as [srv|] eqn:Hsrv.
    + rewrite (exec_Shutdown_started ctx w srv Hsrv). cbn [snd trace store].
      rewrite countPurge_snoc. cbn [isPurge]. split; [lia|]. intros _.
      split; [reflexivity | lia].
    + cbn [exec]. unfold Shutdown. step_monad. rewrite Hsrv. cbn [fst snd trace store]; split; [lia|tauto].
  - cbn [countPostPurge].
    destruct (server (self w)) as [srv|] eqn:Hsrv.
    + destruct (builtByStart_running w srv Hw Hsrv) as [f Hrun].
      destruct (isPostPurgeb req) eqn:Hb.
      * apply isPostPurgeb_spec in Hb.
        split; [|intros; lia].
        destruct (storage.asPurger f) as [p|] eqn:Hp.
        -- rewrite (exec_request_purger f p req w Hrun Hp Hb).
           cbn [snd trace]. rewrite !countPurge_snoc. cbn [isPurge]. lia.
        -- rewrite (exec_request_no_purger server_Shutdown f req w Hrun Hp Hb).
           cbn [snd trace]. rewrite countPurge_snoc. cbn [isPurge]. lia.
      * assert (Hnot : ~ isPostPurge req).
        { intros H. apply isPostPurgeb_spec in H. congruence. }
        pose proof (serve_not_post_purge w f req Hrun Hnot) as Hsame.
        cbn [exec]. unfold mbind, M_bind, mret, M_ret.
        destruct (serve req w) as [o w1]. cbn [snd] in *. subst w1.
        split; [lia|tauto].
    + cbn [exec]. unfold serve. step_monad. rewrite Hsrv. cbn [fst snd trace store]; split; [lia|tauto].
  - cbn [exec countPostPurge]. unfold mbind, M_bind, mret, M_ret, runGoroutine.
    destruct (goroutines w) as [|[] rest]; [cbn [fst snd trace store]; split; [lia|tauto]|].
    unfold listenerTask. destruct lasErr as [e|]; [destruct (negb _)|];
      do 2 step_monad; try (split; [lia|tauto]).
    rewrite countPurge_snoc. cbn [isPurge].
    split; [lia|]. intros _. split; [reflexivity|lia].
Qed.

Lemma run_purge_bound (cs : list Call) (w : world) :
  builtByStart w ->
  (countPurge (trace (snd (run server_Shutdown cs w)))
     <= countPurge (trace w) + countPostPurge cs)%nat /\
  (countPostPurge cs = 0%nat ->
   store (snd (run server_Shutdown cs w)) = store w /\
   countPurge (trace (snd (run server_Shutdown cs w))) = countPurge (trace w)).
Proof.
  revert w. induction cs as [|c cs IH]; intros w Hw.
  - cbn. split; [lia|tauto].
  - rewrite run_cons, countPostPurge_cons. cbn [snd].
    destruct (exec_purge_bound c w Hw) as [Hle Hzero].
    destruct (IH _ (exec_builtByStart c w Hw)) as [Hle' Hzero'].
    split; [lia|]. intros H0.
    assert (Hc : countPostPurge [c] = 0%nat) by lia.
    assert (Hcs : countPostPurge cs = 0%nat) by lia.
    destruct (Hzero Hc) as [Hst Hcnt]. destruct (Hzero' Hcs) as [Hst' Hcnt'].
    split; congruence.
Qed.

(** X8.  Along every history of calls on a new service, [Purge] is
    called at most once per [POST /purge] request and by nothing else:
    [Start], [Shutdown], the listener goroutine and other requests never
    purge, so a history without a [POST /purge] request leaves the
    backend's data as it was. *)
Theorem purge_only_by_post_requests (config : cfg.Config)
    (ts : TelemetrySettings) (st : Store) (cs : list Call) :
  (countPurge (trace (snd (run server_Shutdown cs (newWorld config ts st))))
     <= countPostPurge cs)%nat /\
  (countPostPurge cs = 0%nat ->
   store (snd (run server_Shutdown cs (newWorld config ts st))) = st).
Proof.
  assert (Hnew : builtByStart (newWorld (Ctx := Ctx) config ts st)).
  { intros srv Hsrv. discriminate. }
  destruct (run_purge_bound cs _ Hnew) as [Hle Hzero]. split.
  - exact Hle.
  - intros H0. destruct (Hzero H0) as [Hst _]. exact Hst.
Qed.

End MoreProperties.

(** ** Properties of the e2e harness *)

Section HarnessProperties.

(** A document is ready for the cleaner when [service] is a map with a
    list under [extensions], and [extensions] is a map whose
    [jaeger_query] is a map with a string under [trace_storage]. *)
Lemma addStorageCleaner_ready (config service extensions query : gmap string Value)
    (l : list Value) (ts : string) :
  config !! "service" = Some (VMap service) ->
  service !! "extensions" = Some (VSeq l) ->
  config !! "extensions" = Some (VMap extensions) ->
  extensions !! "jaeger_query" = Some (VMap query) ->
  query !! "trace_storage" = Some (VStr ts) ->
  addStorageCleaner config =
    Ok (<["extensions" :=
            VMap (<["storage_cleaner" :=
                      VStringMap {[ "trace_storage" := ts ]}]> extensions)]>
          (<["service" :=
               VMap (<["extensions" := VSeq (l ++ [VStr "storage_cleaner"])]>
                       service)]> config)).
Proof.
  intros Hs Hl He Hq Ht. unfold addStorageCleaner.
  rewrite Hs, Hl. rewrite lookup_insert_ne by discriminate.
  rewrite He, Hq, Ht. reflexivity.
Qed.

Lemma addStorageCleaner_Ok_inv (config config1 : gmap string Value) :
  addStorageCleaner config = Ok config1 ->
  exists service extensions query l ts,
    config !! "service" = Some (VMap service) /\
    service !! "extensions" = Some (VSeq l) /\
    config !! "extensions" = Some (VMap extensions) /\
    extensions !! "jaeger_query" = Some (VMap query) /\
    query !! "trace_storage" = Some (VStr ts) /\
    config1 =
      <["extensions" :=
          VMap (<["storage_cleaner" :=
                    VStringMap {[ "trace_storage" := ts ]}]> extensions)]>
        (<["service" :=
             VMap (<["extensions" := VSeq (l ++ [VStr "storage_cleaner"])]>
                     service)]> config).
Proof.
  unfold addStorageCleaner.
  destruct (config !! "service") as [[| | |service| |]|] eqn:Hs; try discriminate.
  destruct (service !! "extensions") as [[| |l| | |]|] eqn:Hl; try discriminate.
  rewrite lookup_insert_ne by discriminate.
  destruct (config !! "extensions") as [[| | |extensions| |]|] eqn:He;
    try discriminate.
  destruct (extensions !! "jaeger_query") as [[| | |query| |]|] eqn:Hq;
    try discriminate.
  destruct (query !! "trace_storage") as [[|ts| | | |]|] eqn:Ht;
    try discriminate.
  intros [= <-]. exists service, extensions, query, l, ts.
  repeat split; assumption || reflexivity.
Qed.

(** X9.  The rewriting of the decoded config succeeds exactly on the
    documents that are ready for it: [service] a map with a list under
    [extensions], and [extensions] a map whose [jaeger_query] is a map
    with a string [trace_storage]. *)
Theorem addStorageCleaner_succeeds_iff (config : gmap string Value) :
  (exists config1, addStorageCleaner config = Ok config1) <->
  (exists service extensions query l ts,
      config !! "service" = Some (VMap service) /\
      service !! "extensions" = Some (VSeq l) /\
      config !! "extensions" = Some (VMap extensions) /\
      extensions !! "jaeger_query" = Some (VMap query) /\
      query !! "trace_storage" = Some (VStr ts)).
Proof.
  split.
  - intros [config1 H].
    destruct (addStorageCleaner_Ok_inv config config1 H)
      as (service & extensions & query & l & ts & Hs & Hl & He & Hq & Ht & _).
    exists service, extensions, query, l, ts. repeat split; assumption.
  - intros (service & extensions & query & l & ts & Hs & Hl & He & Hq & Ht).
    eexists. exact (addStorageCleaner_ready _ _ _ _ _ _ Hs Hl He Hq Ht).
Qed.

(** X10.  In the rewritten config the cleaner is configured with the
    storage of the query service: [extensions.storage_cleaner] is
    exactly the one-entry map [trace_storage: ts], whatever stood there
    before, where [ts] is the [trace_storage] of
    [extensions.jaeger_query], which is kept. *)
Theorem cleaner_uses_query_storage (config config1 : gmap string Value) :
  addStorageCleaner config = Ok config1 ->
  exists extensions1 query ts,
    config1 !! "extensions" = Some (VMap extensions1) /\
    extensions1 !! "storage_cleaner" =
      Some (VStringMap {[ "trace_storage" := ts ]}) /\
    extensions1 !! "jaeger_query" = Some (VMap query) /\
    query !! "trace_storage" = Some (VStr ts).
Proof.
  intros H.
  destruct (addStorageCleaner_Ok_inv config config1 H)
    as (service & extensions & query & l & ts & Hs & Hl & He & Hq & Ht & ->).
  eexists _, query, ts. split; [apply lookup_insert_eq|].
  split; [apply lookup_insert_eq|].
  split; [|exact Ht]. rewrite lookup_insert_ne by discriminate. exact Hq.
Qed.

(** X11.  In the rewritten config the list [service.extensions] is the
    old list with "storage_cleaner" appended at the end, also when the
    name is already in the list; the other entries of [service] are
    kept. *)
Theorem cleaner_appended_to_service (config config1 : gmap string Value) :
  addStorageCleaner config = Ok config1 ->
  exists service service1 l,
    config !! "service" = Some (VMap service) /\
    service !! "extensions" = Some (VSeq l) /\
    config1 !! "service" = Some (VMap service1) /\
    service1 !! "extensions" = Some (VSeq (l ++ [VStr "storage_cleaner"])) /\
    forall k, k <> "extensions" -> service1 !! k = service !! k.
Proof.
  intros H.
  destruct (addStorageCleaner_Ok_inv config config1 H)
    as (service & extensions & query & l & ts & Hs & Hl & He & Hq & Ht & ->).
  eexists service, _, l. split; [exact Hs|]. split; [exact Hl|].
  split; [rewrite lookup_insert_ne by discriminate; apply lookup_insert_eq|].
  split; [apply lookup_insert_eq|].
  intros k Hk. rewrite lookup_insert_ne by congruence. reflexivity.
Qed.

(** X12.  The rewriting touches nothing else: the config keeps its set
    of top-level keys, every top-level entry other than [service] and
    [extensions] is as before, and so is every entry of [extensions]
    other than [storage_cleaner]. *)
Theorem other_entries_kept (config config1 : gmap string Value) :
  addStorageCleaner config = Ok config1 ->
  dom config1 = dom config /\
  (forall k, k <> "service" -> k <> "extensions" ->
             config1 !! k = config !! k) /\
  (exists extensions extensions1,
      config !! "extensions" = Some (VMap extensions) /\
      config1 !! "extensions" = Some (VMap extensions1) /\
      forall k, k <> "storage_cleaner" -> extensions1 !! k = extensions !! k).
Proof.
  intros H.
  destruct (addStorageCleaner_Ok_inv config config1 H)
    as (service & extensions & query & l & ts & Hs & Hl & He & Hq & Ht & ->).
  split; [|split].
  - rewrite !dom_insert_L.
    assert (Hin1 : "service" ∈ dom config) by (apply elem_of_dom; eauto).
    assert (Hin2 : "extensions" ∈ dom config) by (apply elem_of_dom; eauto).
    apply set_eq. intros x. rewrite !elem_of_union, !elem_of_singleton.
    split; [intros [->|[->|Hx]]; assumption | tauto].
  - intros k Hk1 Hk2. rewrite !lookup_insert_ne by congruence. reflexivity.
  - eexists extensions, _. split; [exact He|].
    split; [apply lookup_insert_eq|].
    intros k Hk. rewrite lookup_insert_ne by congruence. reflexivity.
Qed.

(** X13.  The rewriting panics, instead of stopping the test through
    [require], exactly when [service] is a map and either its
    [extensions] is not a list, or [extensions.jaeger_query] is a map
    whose [trace_storage] is not a string: these two type assertions
    are made without [ok].  In particular a [service] without an
    [extensions] list panics before the top-level [extensions] is
    looked at. *)
Theorem addStorageCleaner_panics_iff (config : gmap string Value) :
  addStorageCleaner config = Panic <->
  exists service,
    config !! "service" = Some (VMap service) /\
    ((forall l, service !! "extensions" <> Some (VSeq l)) \/
     (exists extensions query,
         config !! "extensions" = Some (VMap extensions) /\
         extensions !! "jaeger_query" = Some (VMap query) /\
         forall ts, query !! "trace_storage" <> Some (VStr ts))).
Proof.
  unfold addStorageCleaner. split.
  - intros H.
    destruct (config !! "service") as [[| | |service| |]|] eqn:Hs;
      try discriminate.
    exists service. split; [reflexivity|].
    destruct (service !! "extensions") as [[| |l| | |]|] eqn:Hl;
      try (left; intros l0; discriminate).
    rewrite lookup_insert_ne in H by discriminate.
    destruct (config !! "extensions") as [[| | |extensions| |]|] eqn:He;
      try discriminate.
    destruct (extensions !! "jaeger_query") as [[| | |query| |]|] eqn:Hq;
      try discriminate.
    right. exists extensions, query. split; [reflexivity|].
    split; [exact Hq|].
    destruct (query !! "trace_storage") as [[|ts| | | |]|] eqn:Ht;
      try discriminate; intros ts0; discriminate.
  - intros (service & Hs & [Hno|(extensions & query & He & Hq & Hno)]);
      rewrite Hs.
    + destruct (service !! "extensions") as [[| |l| | |]|] eqn:Hl;
        try reflexivity.
      exfalso. exact (Hno l eq_refl).
    + destruct (service !! "extensions") as [[| |l| | |]|] eqn:Hl;
        try reflexivity.
      rewrite lookup_insert_ne by discriminate. rewrite He, Hq.
      destruct (query !! "trace_storage") as [[|ts| | | |]|] eqn:Ht;
        try reflexivity.
      exfalso. exact (Hno ts eq_refl).
Qed.

Context {FS : Type}.
Variable ReadFile : string -> FS -> option string.
Variable Unmarshal : string -> option (gmap string Value).
Variable Marshal : gmap string Value -> option string.
Variable TempDir : FS -> option (string * FS).
Variable WriteFile : string -> string -> Z -> FS -> option FS.


End HarnessProperties.

(** ** The further properties at the sample inputs *)

Lemma startedWorld_running (f : storage.Factory nat) :
  running (startedWorld f) f.
Proof. exists (startedServer (self sampleWorld) f). split; reflexivity. Qed.

Lemma not_post_purge_leaves_world_witness :
  running (startedWorld factoryOK) factoryOK /\
  ~ isPostPurge getPurge /\
  snd (serve getPurge (startedWorld factoryOK)) = startedWorld factoryOK /\
  countPurge (trace (snd (serve getPurge (startedWorld factoryOK))))
    = countPurge (trace (startedWorld factoryOK)) /\
  store (snd (serve getPurge (startedWorld factoryOK)))
    = store (startedWorld factoryOK).
Proof.
  assert (Hnot : ~ isPostPurge getPurge) by (intros [Hm _]; discriminate).
  split; [apply startedWorld_running|]. split; [exact Hnot|].
  apply (not_post_purge_leaves_world (startedWorld factoryOK) factoryOK getPurge
           (startedWorld_running factoryOK) Hnot).
Defined.

Lemma wrong_method_rejected_witness :
  running (startedWorld factoryOK) factoryOK /\
  http.Path getPurge = URL /\
  http.Method getPurge <> http.MethodPost /\
  exists resp,
    serve getPurge (startedWorld factoryOK) = (Some resp, startedWorld factoryOK) /\
    http.status resp = Some http.StatusMethodNotAllowed /\
    http.body resp = "".
Proof.
  assert (Hm : http.Method getPurge <> http.MethodPost) by discriminate.
  split; [apply startedWorld_running|]. split; [reflexivity|]. split; [exact Hm|].
  apply (wrong_method_rejected (startedWorld factoryOK) factoryOK getPurge
           (startedWorld_running factoryOK) eq_refl Hm).
Defined.

Lemma requests_purge_in_order_witness :
  running (startedWorld factoryFailing) factoryFailing /\
  storage.asPurger factoryFailing = Some purgerFailing /\
  Forall isPostPurge [postPurge; postPurge] /\
  map snd (fst (run sampleShutdown (map CallRequest [postPurge; postPurge])
                  (startedWorld factoryFailing))) =
    [Responded (Some (purgeAnswer (Some diskError)));
     Responded (Some (purgeAnswer (Some diskError)))] /\
  store (snd (run sampleShutdown (map CallRequest [postPurge; postPurge])
                (startedWorld factoryFailing))) = 7%nat /\
  countPurge (trace (snd (run sampleShutdown
                            (map CallRequest [postPurge; postPurge])
                            (startedWorld factoryFailing)))) = 2%nat.
Proof.
  assert (Hall : Forall isPostPurge [postPurge; postPurge]).
  { repeat constructor. }
  split; [apply startedWorld_running|]. split; [reflexivity|].
  split; [exact Hall|].
  exact (requests_purge_in_order sampleShutdown factoryFailing purgerFailing
           [postPurge; postPurge] (startedWorld factoryFailing)
           (startedWorld_running factoryFailing) eq_refl Hall).
Defined.

Lemma Start_twice_witness :
  jaegerstorage.factories (hostWith factoryOK)
    !! cfg.TraceStorage (config (self sampleWorld)) = Some factoryOK /\
  jaegerstorage.factories (hostWith factoryNoPurge)
    !! cfg.TraceStorage (config (self sampleWorld)) = Some factoryNoPurge /\
  fst (Start false (hostWith factoryNoPurge)
         (snd (Start true (hostWith factoryOK) sampleWorld))) = None /\
  server (self (snd (Start false (hostWith factoryNoPurge)
                       (snd (Start true (hostWith factoryOK) sampleWorld))))) =
    Some (startedServer (self sampleWorld) factoryNoPurge) /\
  goroutines (snd (Start false (hostWith factoryNoPurge)
                     (snd (Start true (hostWith factoryOK) sampleWorld)))) =
    goroutines sampleWorld ++ [listenAndServeTask; listenAndServeTask] /\
  running (snd (Start false (hostWith factoryNoPurge)
                  (snd (Start true (hostWith factoryOK) sampleWorld))))
    factoryNoPurge.
Proof.
  split; [reflexivity|]. split; [reflexivity|].
  apply (Start_twice true false (hostWith factoryOK) (hostWith factoryNoPurge)
           sampleWorld factoryOK factoryNoPurge); reflexivity.
Defined.

Lemma Shutdown_repeated_witness :
  server (self (startedWorld factoryOK))
    = Some (startedServer (self sampleWorld) factoryOK) /\
  map snd (fst (run sampleShutdown (map CallShutdown [true; false])
                  (startedWorld factoryOK))) =
    [Returned None;
     Returned (Some (fmt.Errorf_w "error shutting down cleaner server: "
                       deadlineExceeded))] /\
  trace (snd (run sampleShutdown (map CallShutdown [true; false])
                (startedWorld factoryOK))) =
    trace (startedWorld factoryOK) ++ [EvServerShutdown true; EvServerShutdown false] /\
  self (snd (run sampleShutdown (map CallShutdown [true; false])
               (startedWorld factoryOK))) = self (startedWorld factoryOK).
Proof.
  split; [reflexivity|].
  exact (Shutdown_repeated sampleShutdown [true; false] (startedWorld factoryOK)
           (startedServer (self sampleWorld) factoryOK) eq_refl).
Defined.

Lemma Shutdown_error_chain_witness :
  server (self (startedWorld factoryOK))
    = Some (startedServer (self sampleWorld) factoryOK) /\
  sampleShutdown (startedServer (self sampleWorld) factoryOK) false
    = Some deadlineExceeded /\
  errors.Is (Some deadlineExceeded) (Some deadlineExceeded) = true /\
  exists e,
    fst (Shutdown sampleShutdown false (startedWorld factoryOK)) = Some e /\
    errors.Is (Some e) (Some deadlineExceeded) = true /\
    errors.Error e =
      "error shutting down cleaner server: " +:+ errors.Error deadlineExceeded.
Proof.
  split; [reflexivity|]. split; [reflexivity|]. split; [reflexivity|].
  apply (Shutdown_error_chain sampleShutdown false (startedWorld factoryOK)
           (startedServer (self sampleWorld) factoryOK)
           deadlineExceeded deadlineExceeded); reflexivity.
Defined.

Lemma addStorageCleaner_sample : addStorageCleaner sampleDocument = Ok sampleRewritten.
Proof. vm_compute. reflexivity. Qed.

Example addStorageCleaner_no_list : addStorageCleaner documentNoList = Panic.
Proof. vm_compute. reflexivity. Qed.

Example addStorageCleaner_bad_name : addStorageCleaner documentBadName = Panic.
Proof. vm_compute. reflexivity. Qed.

Example addStorageCleaner_empty : addStorageCleaner ∅ = TestFailed.
Proof. reflexivity. Qed.

Lemma cleaner_uses_query_storage_witness :
  addStorageCleaner sampleDocument = Ok sampleRewritten /\
  exists extensions1 query ts,
    sampleRewritten !! "extensions" = Some (VMap extensions1) /\
    extensions1 !! "storage_cleaner" =
      Some (VStringMap {[ "trace_storage" := ts ]}) /\
    extensions1 !! "jaeger_query" = Some (VMap query) /\
    query !! "trace_storage" = Some (VStr ts).
Proof.
  split; [exact addStorageCleaner_sample|].
  apply (cleaner_uses_query_storage sampleDocument sampleRewritten).
  exact addStorageCleaner_sample.
Defined.

Lemma cleaner_appended_to_service_witness :
  addStorageCleaner sampleDocument = Ok sampleRewritten /\
  exists service service1 l,
    sampleDocument !! "service" = Some (VMap service) /\
    service !! "extensions" = Some (VSeq l) /\
    sampleRewritten !! "service" = Some (VMap service1) /\
    service1 !! "extensions" = Some (VSeq (l ++ [VStr "storage_cleaner"])) /\
    forall k, k <> "extensions" -> service1 !! k = service !! k.
Proof.
  split; [exact addStorageCleaner_sample|].
  apply (cleaner_appended_to_service sampleDocument sampleRewritten).
  exact addStorageCleaner_sample.
Defined.

Lemma other_entries_kept_witness :
  addStorageCleaner sampleDocument = Ok sampleRewritten /\
  dom sampleRewritten = dom sampleDocument /\
  (forall k, k <> "service" -> k <> "extensions" ->
             sampleRewritten !! k = sampleDocument !! k) /\
  (exists extensions extensions1,
      sampleDocument !! "extensions" = Some (VMap extensions) /\
      sampleRewritten !! "extensions" = Some (VMap extensions1) /\
      forall k, k <> "storage_cleaner" -> extensions1 !! k = extensions !! k).
Proof.
  split; [exact addStorageCleaner_sample|].
  apply (other_entries_kept sampleDocument sampleRewritten).
  exact addStorageCleaner_sample.
Defined.


